(** * vinxi: registries, management API and proxy bootstrap

    A shallow embedding of the Go sources

    - [rule/rules.go]       (the process-wide rule registry),
    - [manager/api.go]      (the management routes and JSON views),
    - the [PluginsController] file of package [manager],
    - [vinxi.go]            (the proxy constructor and [ServeHTTP]).

    Go maps are [gmap]s, slices are lists, a call that may panic returns an
    [outcome], and the package-level variables ([rule.Rules],
    [plugin.Plugins]) are passed explicitly. *)

From stdpp Require Import gmap strings list fin_maps pretty.
From Stdlib Require Import ZArith.

Local Open Scope string_scope.
Local Open Scope nat_scope.
Local Open Scope list_scope.

(** ** Go runtime conventions *)

(** A Go call either returns a value or panics with a message. *)
Inductive outcome (A : Type) : Type :=
  | Returns (a : A)
  | Panics (msg : string).
Arguments Returns {A} a.
Arguments Panics {A} msg.

Definition aborts {A} (o : outcome A) : Prop := ∃ msg, o = Panics msg.
Definition returns {A} (o : outcome A) : Prop := ∃ a, o = Returns a.

(** Calling through a nil function value or a nil pointer. *)
Definition nil_dereference : string :=
  "runtime error: invalid memory address or nil pointer dereference".

(** Sequencing: a panic in [o] skips the rest. *)
#[export] Instance outcome_bind : MBind outcome := λ A B k o,
  match o with
  | Returns a => k a
  | Panics msg => Panics msg
  end.

#[export] Instance outcome_fmap : FMap outcome := λ A B f o,
  match o with
  | Returns a => Returns (f a)
  | Panics msg => Panics msg
  end.

(** [s[i] = v] on a slice: a bounds check, then the store. *)
Definition index_out_of_range (i len : nat) : string :=
  ("runtime error: index out of range [" ++ pretty i ++ "] with length "
     ++ pretty len)%string.

Definition index_assign {A} (s : list A) (i : nat) (v : A) : outcome (list A) :=
  if decide (i < length s) then Returns (<[i := v]> s)
  else Panics (index_out_of_range i (length s)).

(** [for i, x := range xs { buf[i] = f(x) }], entered at index [i]. *)
Fixpoint range_assign {A B} (f : A → outcome B) (xs : list A) (i : nat)
    (buf : list B) : outcome (list B) :=
  match xs with
  | [] => Returns buf
  | x :: xs' =>
      y ← f x;
      buf' ← index_assign buf i y;
      range_assign f xs' (S i) buf'
  end.

(** [for _, x := range xs { buf = append(buf, f(x)) }] *)
Fixpoint range_append {A B} (f : A → B) (xs : list A) (buf : list B) : list B :=
  match xs with
  | [] => buf
  | x :: xs' => range_append f xs' (buf ++ [f x])
  end.

(** ** package config *)
Module config.

(** The values an [interface{}] of a configuration object holds. *)
Inductive Value : Type :=
  | VNil
  | VBool (b : bool)
  | VNumber (n : Z)
  | VString (s : string).

(** [type Config map[string]interface{}] *)
Definition Config : Type := gmap string Value.

End config.

(** ** package rule (rule/rules.go) *)
Module rule.

(** The [Rule] interface, through the accessors the sources call. *)
Record Rule : Type := mkRule {
  Rule_ID : string;
  Rule_Name : string;
  Rule_Description : string;
  Rule_Config : config.Config
}.

(** [type Factory func(config.Config) Rule]; [None] is the nil function. *)
Definition Factory : Type := option (config.Config → Rule).

Record Field : Type := mkField {
  Field_Name : string;
  Field_Type : string;
  Field_Description : string;
  Field_Mandatory : bool;
  Field_Example : string
}.

Definition Params : Type := list Field.

Record Info : Type := mkInfo {
  Info_Name : string;
  Info_Description : string;
  Info_Params : Params;
  Info_Factory : Factory
}.

(** The zero value of [Info], what indexing a map at a missing key gives. *)
Definition zeroInfo : Info := mkInfo "" "" [] None.

(** [var Rules = make(map[string]Info)] *)
Definition Rules0 : gmap string Info := ∅.

(** [Rules[rule.Name] = rule] *)
Definition Register (rule : Info) (Rules : gmap string Info) : gmap string Info :=
  <[Info_Name rule := rule]> Rules.

(** [_, ok := Rules[name]; return ok] *)
Definition Exists (name : string) (Rules : gmap string Info) : bool :=
  match Rules !! name with
  | Some _ => true
  | None => false
  end.

(** [rule, ok := Rules[name]; if ok { return rule.Factory }; return nil] *)
Definition Get (name : string) (Rules : gmap string Info) : Factory :=
  match Rules !! name with
  | Some rule => Info_Factory rule
  | None => None
  end.

(** [return Rules[name]] *)
Definition GetInfo (name : string) (Rules : gmap string Info) : Info :=
  match Rules !! name with
  | Some rule => rule
  | None => zeroInfo
  end.

Definition missing_rule (name : string) : string :=
  ("vinxi: rule '" ++ name ++ "' does not exists.")%string.

(** [if !Exists(name) { panic(...) }; return Rules[name].Factory(opts)] *)
Definition Init (name : string) (opts : config.Config)
    (Rules : gmap string Info) : outcome Rule :=
  if negb (Exists name Rules) then Panics (missing_rule name)
  else match Info_Factory (GetInfo name Rules) with
       | Some factory => Returns (factory opts)
       | None => Panics nil_dereference
       end.

End rule.

(** ** package plugin *)
Module plugin.

(** Modelled from the spec: the [Plugin] interface of package [plugin] is not
    among the sources. A Plugin "carries: ID, display name, description,
    enabled flag, arbitrary configuration object, arbitrary metadata object";
    the fields stand for the accessors [ID()], [Name()], [Description()],
    [IsEnabled()], [Config()] and [Metadata()]. *)
Record Plugin : Type := mkPlugin {
  Plugin_ID : string;
  Plugin_Name : string;
  Plugin_Description : string;
  Plugin_IsEnabled : bool;
  Plugin_Config : config.Config;
  Plugin_Metadata : config.Config
}.

(** A plugin factory returns [(Plugin, error)], as its call site in
    [PluginsController.Create] shows; [None] is the nil function. *)
Definition Factory : Type := option (config.Config → Plugin + string).

(** Modelled from the spec: the plugin registry is not among the sources;
    "two independent registries exist (plugins, rules) with identical
    contract", so [Info], [Plugins] and [Get] follow package [rule]. *)
Record Info : Type := mkInfo {
  Info_Name : string;
  Info_Description : string;
  Info_Params : rule.Params;
  Info_Factory : Factory
}.

(** Modelled from the spec: registration in the plugin registry, as
    [rule.Register]. *)
Definition Register (plugin : Info) (Plugins : gmap string Info) : gmap string Info :=
  <[Info_Name plugin := plugin]> Plugins.

(** Modelled from the spec: lookup of a plugin factory, as [rule.Get]; nil
    when the name is not registered. *)
Definition Get (name : string) (Plugins : gmap string Info) : Factory :=
  match Plugins !! name with
  | Some plugin => Info_Factory plugin
  | None => None
  end.

(** [plugin.Layer], through [All()]: the plugins it holds, in order. *)
Definition Layer : Type := list Plugin.

End plugin.

(** ** package manager: the entities and their JSON views *)
Module manager.

Record JSONRule : Type := mkJSONRule {
  JSONRule_ID : string;
  JSONRule_Name : string;
  JSONRule_Description : string;
  JSONRule_Config : config.Config;
  JSONRule_Metadata : config.Config
}.

Record JSONPlugin : Type := mkJSONPlugin {
  JSONPlugin_ID : string;
  JSONPlugin_Name : string;
  JSONPlugin_Description : string;
  JSONPlugin_Enabled : bool;
  JSONPlugin_Config : config.Config;
  JSONPlugin_Metadata : config.Config
}.

Record JSONScope : Type := mkJSONScope {
  JSONScope_ID : string;
  JSONScope_Name : string;
  JSONScope_Rules : list JSONRule;
  JSONScope_Plugins : list JSONPlugin
}.

Record JSONInstance : Type := mkJSONInstance {
  JSONInstance_ID : string;
  JSONInstance_Name : string;
  JSONInstance_Description : string;
  JSONInstance_Metadata : list config.Config;
  JSONInstance_Scopes : list JSONScope
}.

(** Zero values, what [make([]T, n)] fills a slice with. *)
Definition zeroJSONRule : JSONRule := mkJSONRule "" "" "" ∅ ∅.
Definition zeroJSONScope : JSONScope := mkJSONScope "" "" [] [].

(** [*Scope] through the fields and accessors the sources read:
    [ID], [Name], [Rules.All()] (with [Rules.Len()] its length) and
    [Plugins]. *)
Record Scope : Type := mkScope {
  Scope_ID : string;
  Scope_Name : string;
  Scope_Rules : list rule.Rule;
  Scope_Plugins : plugin.Layer
}.

(** [*Instance] through [ID], [Name], [Description] and [Scopes()]. *)
Record Instance : Type := mkInstance {
  Instance_ID : string;
  Instance_Name : string;
  Instance_Description : string;
  Instance_Scopes : list Scope
}.

(** What a handler hands to [ctx.Send] or [ctx.SendJSON]. *)
Inductive Payload : Type :=
  | JCatalog (rules : list rule.Info) (plugins : list plugin.Info)
  | JPlugin (p : JSONPlugin)
  | JPlugins (ps : list JSONPlugin)
  | JRule (r : JSONRule)
  | JRules (rs : list JSONRule)
  | JScope (s : JSONScope)
  | JScopes (ss : list JSONScope)
  | JInstance (i : JSONInstance)
  | JInstances (insts : list JSONInstance).

(** The calls a handler makes on its context and on the manager behind it,
    in the order it makes them. *)
Inductive Call : Type :=
  | Send (body : Payload)
  | SendJSON (body : Payload)
  | SendNoContent
  | SendError (code : Z) (msg : string)
  | SendNotFound (msg : string)
  | UsePlugin (p : plugin.Plugin).

(** The body [PluginsController.Create] decodes. *)
Record data : Type := mkdata {
  data_Name : string;
  data_Params : config.Config
}.

(** The methods of [Manager], [Instance], [Scope] and [Context] the handlers
    call and whose bodies are not among the sources, as an interface over the
    store [M] of instances, scopes, plugins and rules they act on. A removal
    returns the new store and the [bool] the Go method returns; [ParseBody]
    decodes the request body or fails with an error. *)
Class Backend (M : Type) : Type := {
  Manager_RemoveInstance : string → M → M * bool;
  Manager_RemovePlugin : string → M → M * bool;
  Manager_UsePlugin : plugin.Plugin → M → M;
  Manager_Plugins : M → plugin.Layer;
  Manager_GetInstance : string → M → option Instance;
  Instance_RemoveScope : Instance → string → M → M * bool;
  Scope_RemovePlugin : Scope → string → M → M * bool;
  Scope_RemoveRule : Scope → string → M → M * bool;
  ParseBody : string → data + string
}.

(** [*Context]: the manager, the entities the route parameters resolved to
    (nil when the route has none), the request body, and the calls made. *)
Record Context (M : Type) : Type := mkContext {
  Context_Manager : M;
  Context_Instance : option Instance;
  Context_Scope : option Scope;
  Context_Plugin : option plugin.Plugin;
  Context_Rule : option rule.Rule;
  Context_Body : string;
  Context_Calls : list Call
}.
Arguments mkContext {M}.
Arguments Context_Manager {M}.
Arguments Context_Instance {M}.
Arguments Context_Scope {M}.
Arguments Context_Plugin {M}.
Arguments Context_Rule {M}.
Arguments Context_Body {M}.
Arguments Context_Calls {M}.

Section context.
Context {M : Type} `{!Backend M}.

Definition call (c : Call) (ctx : Context M) : Context M :=
  mkContext (Context_Manager ctx) (Context_Instance ctx) (Context_Scope ctx)
    (Context_Plugin ctx) (Context_Rule ctx) (Context_Body ctx)
    (Context_Calls ctx ++ [c]).

Definition with_Manager (m : M) (ctx : Context M) : Context M :=
  mkContext m (Context_Instance ctx) (Context_Scope ctx)
    (Context_Plugin ctx) (Context_Rule ctx) (Context_Body ctx)
    (Context_Calls ctx).

Definition with_Instance (i : Instance) (ctx : Context M) : Context M :=
  mkContext (Context_Manager ctx) (Some i) (Context_Scope ctx)
    (Context_Plugin ctx) (Context_Rule ctx) (Context_Body ctx)
    (Context_Calls ctx).

Definition with_Scope (s : Scope) (ctx : Context M) : Context M :=
  mkContext (Context_Manager ctx) (Context_Instance ctx) (Some s)
    (Context_Plugin ctx) (Context_Rule ctx) (Context_Body ctx)
    (Context_Calls ctx).

Definition with_Plugin (p : plugin.Plugin) (ctx : Context M) : Context M :=
  mkContext (Context_Manager ctx) (Context_Instance ctx) (Context_Scope ctx)
    (Some p) (Context_Rule ctx) (Context_Body ctx) (Context_Calls ctx).

Definition with_Rule (r : rule.Rule) (ctx : Context M) : Context M :=
  mkContext (Context_Manager ctx) (Context_Instance ctx) (Context_Scope ctx)
    (Context_Plugin ctx) (Some r) (Context_Body ctx) (Context_Calls ctx).

(** A removal method called on the store behind [ctx]. *)
Definition mutate (remove : M → M * bool) (ctx : Context M) : Context M * bool :=
  let '(m, ok) := remove (Context_Manager ctx) in (with_Manager m ctx, ok).

(** [ctx.Manager.UsePlugin(instance)] *)
Definition Context_UsePlugin (p : plugin.Plugin) (ctx : Context M) : Context M :=
  call (UsePlugin p) (with_Manager (Manager_UsePlugin p (Context_Manager ctx)) ctx).

End context.

(** *** manager/api.go *)
Module api.

Definition createRule (rule : rule.Rule) : JSONRule :=
  {| JSONRule_ID := rule.Rule_ID rule;
     JSONRule_Name := rule.Rule_Name rule;
     JSONRule_Description := rule.Rule_Description rule;
     JSONRule_Config := rule.Rule_Config rule;
     JSONRule_Metadata := ∅ (* not in the literal: zero value *) |}.

Definition createPlugin (plugin : plugin.Plugin) : JSONPlugin :=
  {| JSONPlugin_ID := plugin.Plugin_ID plugin;
     JSONPlugin_Name := plugin.Plugin_Name plugin;
     JSONPlugin_Description := plugin.Plugin_Description plugin;
     JSONPlugin_Enabled := false (* not in the literal: zero value *);
     JSONPlugin_Config := plugin.Plugin_Config plugin;
     JSONPlugin_Metadata := plugin.Plugin_Metadata plugin |}.

(** [list := []JSONPlugin{}; for i, plugin := range plugins
     { list[i] = createPlugin(plugin) }; return list] *)
Definition createPlugins (plugins : list plugin.Plugin) : outcome (list JSONPlugin) :=
  range_assign (λ plugin, Returns (createPlugin plugin)) plugins 0 [].

(** [rules := make([]JSONRule, scope.Rules.Len()); for i, rule := range
     scope.Rules.All() { rules[i] = createRule(rule) }; return rules] *)
Definition createRules (scope : Scope) : outcome (list JSONRule) :=
  range_assign (λ rule, Returns (createRule rule)) (Scope_Rules scope) 0
    (replicate (length (Scope_Rules scope)) zeroJSONRule).

Definition createScope (scope : Scope) : outcome JSONScope :=
  rules ← createRules scope;
  plugins ← createPlugins (Scope_Plugins scope);
  Returns {| JSONScope_ID := Scope_ID scope;
             JSONScope_Name := Scope_Name scope;
             JSONScope_Rules := rules;
             JSONScope_Plugins := plugins |}.

(** [buf := make([]JSONScope, len(scopes)); for i, scope := range scopes
     { buf[i] = createScope(scope) }; return buf] *)
Definition createScopes (scopes : list Scope) : outcome (list JSONScope) :=
  range_assign createScope scopes 0 (replicate (length scopes) zeroJSONScope).

Section handlers.
Context {M : Type} `{!Backend M}.

(** [GET /catalog]. Go ranges over a map in an unspecified order: the two
    loops run over [rules] and [plugins], the entries of [rule.Rules] and of
    [plugin.Plugins] in the order the runtime yields them. *)
Definition GET_catalog (rules : list (string * rule.Info))
    (plugins : list (string * plugin.Info)) (ctx : Context M) : Context M :=
  let rules := range_append snd rules [] in
  let plugins := range_append snd plugins [] in
  call (SendJSON (JCatalog rules plugins)) ctx.

(** [GET /plugins] *)
Definition GET_plugins (ctx : Context M) : outcome (Context M) :=
  plugins ← createPlugins (Manager_Plugins (Context_Manager ctx));
  Returns (call (SendJSON (JPlugins plugins)) ctx).

(** [DELETE /instances/:instance] *)
Definition DELETE_instance (ctx : Context M) : outcome (Context M) :=
  match Context_Instance ctx with
  | None => Panics nil_dereference
  | Some instance =>
      let '(ctx, ok) := mutate (Manager_RemoveInstance (Instance_ID instance)) ctx in
      if ok : bool then Returns (call SendNoContent ctx)
      else Returns (call (SendError 500 "Cannot remove instance") ctx)
  end.

(** [DELETE /instances/:instance/scopes/:scope] *)
Definition DELETE_scope (ctx : Context M) : outcome (Context M) :=
  match Context_Instance ctx, Context_Scope ctx with
  | Some instance, Some scope =>
      let '(ctx, ok) := mutate (Instance_RemoveScope instance (Scope_ID scope)) ctx in
      if ok : bool then Returns (call SendNoContent ctx)
      else Returns (call (SendError 500 "Cannot remove scope") ctx)
  | _, _ => Panics nil_dereference
  end.

(** [DELETE /instances/:instance/scopes/:scope/plugins/:plugin] *)
Definition DELETE_plugin (ctx : Context M) : outcome (Context M) :=
  match Context_Scope ctx, Context_Plugin ctx with
  | Some scope, Some plugin =>
      let '(ctx, ok) := mutate (Scope_RemovePlugin scope (plugin.Plugin_ID plugin)) ctx in
      if ok : bool then Returns (call SendNoContent ctx)
      else Returns (call (SendError 500 "Cannot remove plugin") ctx)
  | _, _ => Panics nil_dereference
  end.

(** [DELETE /instances/:instance/scopes/:scope/rules/:rule] *)
Definition DELETE_rule (ctx : Context M) : outcome (Context M) :=
  match Context_Scope ctx, Context_Rule ctx with
  | Some scope, Some rule =>
      let '(ctx, ok) := mutate (Scope_RemoveRule scope (rule.Rule_ID rule)) ctx in
      if ok : bool then Returns (call SendNoContent ctx)
      else Returns (call (SendError 500 "Cannot remove rule") ctx)
  | _, _ => Panics nil_dereference
  end.

End handlers.
End api.

(** *** The [PluginsController] file of package manager *)
Module controller.

Definition createPlugin (p : plugin.Plugin) : JSONPlugin :=
  {| JSONPlugin_ID := plugin.Plugin_ID p;
     JSONPlugin_Name := plugin.Plugin_Name p;
     JSONPlugin_Description := plugin.Plugin_Description p;
     JSONPlugin_Enabled := false (* not in the literal: zero value *);
     JSONPlugin_Config := plugin.Plugin_Config p;
     JSONPlugin_Metadata := plugin.Plugin_Metadata p |}.

(** [list := []JSONPlugin{}; for _, plugin := range plugins
     { list = append(list, createPlugin(plugin)) }; return list] *)
Definition createPlugins (plugins : list plugin.Plugin) : list JSONPlugin :=
  range_append createPlugin plugins [].

Section handlers.
Context {M : Type} `{!Backend M}.

Definition List (ctx : Context M) : Context M :=
  let layer :=
    match Context_Scope ctx with
    | Some scope => Scope_Plugins scope
    | None => Manager_Plugins (Context_Manager ctx)
    end in
  call (Send (JPlugins (createPlugins layer))) ctx.

Definition Get (ctx : Context M) : outcome (Context M) :=
  match Context_Plugin ctx with
  | None => Panics nil_dereference
  | Some p => Returns (call (Send (JPlugin (createPlugin p))) ctx)
  end.

Definition Delete (ctx : Context M) : outcome (Context M) :=
  match Context_Plugin ctx with
  | None => Panics nil_dereference
  | Some p =>
      let '(ctx, ok) := mutate (Manager_RemovePlugin (plugin.Plugin_ID p)) ctx in
      if ok : bool then Returns (call SendNoContent ctx)
      else Returns (call (SendError 500 "Cannot remove plugin") ctx)
  end.

(** [Plugins] is the package variable [plugin.Plugins] that [plugin.Get]
    reads. *)
Definition Create (Plugins : gmap string plugin.Info) (ctx : Context M) : Context M :=
  match ParseBody (Context_Body ctx) with
  | inr err => ctx
  | inl plu =>
      if decide (data_Name plu = "") then
        call (SendError 400 "Missing required param: name") ctx
      else
        match plugin.Get (data_Name plu) Plugins with
        | None => call (SendNotFound "Plugin not found") ctx
        | Some factory =>
            match factory (data_Params plu) with
            | inr err => call (SendError 400 ("Cannot create plugin: " ++ err)%string) ctx
            | inl instance =>
                call (Send (JPlugin (createPlugin instance)))
                  (Context_UsePlugin instance ctx)
            end
        end
  end.

End handlers.
End controller.

(** *** Removal by ID *)
Section removal.
Context {M : Type} `{!Backend M}.

(** Modelled from the spec: the code that resolves the route parameters
    [:instance], [:scope], [:plugin] and [:rule] to the entities of the
    context before a handler runs is not among the sources. Removal by ID
    "signals NotFound if absent": when the ID names no entity the handler
    is not entered and the caller gets a not-found reply, worded after the
    "Plugin not found" of [controller.Create]. *)
Definition resolve {E} (found : option E) (what : string)
    (bind : E → Context M → Context M)
    (handler : Context M → outcome (Context M)) (ctx : Context M)
    : outcome (Context M) :=
  match found with
  | None => Returns (call (SendNotFound (what ++ " not found")%string) ctx)
  | Some e => handler (bind e ctx)
  end.

Definition find_scope (id : string) (i : Instance) : option Scope :=
  List.find (λ s, bool_decide (Scope_ID s = id)) (Instance_Scopes i).

Definition find_plugin (id : string) (ps : plugin.Layer) : option plugin.Plugin :=
  List.find (λ p, bool_decide (plugin.Plugin_ID p = id)) ps.

Definition find_rule (id : string) (s : Scope) : option rule.Rule :=
  List.find (λ r, bool_decide (rule.Rule_ID r = id)) (Scope_Rules s).

(** Modelled from the spec: "Remove an Instance, Scope, Plugin, or Rule by
    ID", the resolution above followed by the handler of the route. *)
Definition remove_instance (instance : string) (ctx : Context M) :=
  resolve (Manager_GetInstance instance (Context_Manager ctx))
    "Instance" with_Instance api.DELETE_instance ctx.

Definition in_scope (instance scope : string)
    (handler : Scope → Context M → outcome (Context M)) (ctx : Context M) :=
  resolve (Manager_GetInstance instance (Context_Manager ctx))
    "Instance" with_Instance
    (λ ctx, match Context_Instance ctx with
            | Some i =>
                resolve (find_scope scope i) "Scope" with_Scope
                  (λ ctx, match Context_Scope ctx with
                          | Some s => handler s ctx
                          | None => Panics nil_dereference
                          end) ctx
            | None => Panics nil_dereference
            end) ctx.

Definition remove_scope (instance scope : string) (ctx : Context M) :=
  in_scope instance scope (λ _, api.DELETE_scope) ctx.

Definition remove_plugin (instance scope plugin : string) (ctx : Context M) :=
  in_scope instance scope
    (λ s, resolve (find_plugin plugin (Scope_Plugins s))
       "Plugin" with_Plugin api.DELETE_plugin) ctx.

Definition remove_rule (instance scope rule : string) (ctx : Context M) :=
  in_scope instance scope
    (λ s, resolve (find_rule rule s) "Rule" with_Rule api.DELETE_rule) ctx.

Definition remove_manager_plugin (plugin : string) (ctx : Context M) :=
  resolve (find_plugin plugin (Manager_Plugins (Context_Manager ctx)))
    "Plugin" with_Plugin controller.Delete ctx.

End removal.

End manager.

(** ** net/http, through what the proxy reads and writes *)
Module http.

Record URL : Type := mkURL {
  URL_Scheme : string;
  URL_Host : string;
  URL_Path : string
}.

(** [*http.Request]; [Request_Context] is the per-request store of package
    [context]. *)
Record Request : Type := mkRequest {
  Request_Method : string;
  Request_Host : string;
  Request_URL : URL;
  Request_Context : gmap string config.Value
}.

Record Response : Type := mkResponse {
  Response_Status : Z;
  Response_Body : string
}.

(** [r.URL.Host = host] *)
Definition set_URL_Host (host : string) (r : Request) : Request :=
  mkRequest (Request_Method r) (Request_Host r)
    (mkURL (URL_Scheme (Request_URL r)) host (URL_Path (Request_URL r)))
    (Request_Context r).

End http.

(** ** package context *)
Module context.
Import http.

(** Modelled from the spec: package [context] is not among the sources; it
    keeps the "request-derived context" that handlers read. [Set_] is
    [context.Set(r, key, value)]. *)
Definition Set_ (r : Request) (key : string) (value : config.Value) : Request :=
  mkRequest (Request_Method r) (Request_Host r) (Request_URL r)
    (<[key := value]> (Request_Context r)).

Definition Get (r : Request) (key : string) : option config.Value :=
  Request_Context r !! key.

End context.

(** ** package forward *)
Module forward.
Import http.

(** Modelled from the spec: package [forward] is not among the sources. The
    Forwarder "derives the upstream target from the request's own addressing
    information ... and offers a configuration option to preserve the
    original inbound host identity in the forwarded request"; with the option
    enabled "the upstream receives the original inbound host identity
    unchanged; with it disabled, the upstream receives the proxy's own
    outbound host". [New] applies its option setters in order to a forwarder
    with every option off. *)
Record Forwarder : Type := mkForwarder {
  passHost : bool
}.

Inductive optSetter : Type :=
  | PassHostHeader (b : bool).

Definition setOption (f : Forwarder) (s : optSetter) : Forwarder :=
  match s with
  | PassHostHeader b => mkForwarder b
  end.

(** Modelled from the spec: [forward.New(setters...)], with its error
    result. *)
Definition New (setters : list optSetter) : Forwarder * option string :=
  (foldl setOption (mkForwarder false) setters, None).

(** Modelled from the spec: the upstream the request is sent to, "derived
    from the request's own target information", and the host identity the
    forwarded request carries. *)
Definition target (r : Request) : URL := Request_URL r.

Definition upstream_Host (f : Forwarder) (r : Request) : string :=
  if passHost f then Request_Host r else URL_Host (target r).

End forward.

(** ** package layer *)
Module layer.
Import http.

(** Modelled from the spec: package [layer] is not among the sources. A
    Layer is "an ordered-by-phase, ordered-by-priority collection of handler
    entries, with at most one designated final handler and an optional parent
    Layer reference". [Run] collects the phase's handlers "in priority order
    — Head, then unordered Normal entries in registration order, then Tail —
    and invoke[s] them sequentially"; a handler that does not invoke its
    continuation short-circuits the chain; when the list is exhausted
    control delegates to the parent if one is set, and otherwise "the final
    handler (or caller fallback) executes". *)
Inductive Priority : Type := Head | Normal | Tail.

Definition RequestPhase : string := "request".

(** What a handler does with its continuation: invoke it, or not. *)
Inductive Step : Type :=
  | Next (r : Request)
  | Stop (resp : Response).

(** The values implementing [layer.Middleware] that a parent pointer can
    hold: the proxy's own root layer, or a layer outside the proxy. *)
Inductive Middleware : Type :=
  | RootLayer
  | External (id : nat).

(** A registered entry: a plain request handler, or the proxy's router,
    held by pointer and so seen with the routes it has when the phase runs. *)
Inductive Handler : Type :=
  | HandlerFunc (h : Request → Step)
  | RouterHandler.

(** An [http.Handler] used as final handler. *)
Inductive Final : Type :=
  | Forward (f : forward.Forwarder)
  | FinalFunc (h : Request → Response).

Record Pool : Type := mkPool {
  Pool_Head : list Handler;
  Pool_Normal : list Handler;
  Pool_Tail : list Handler
}.

Definition emptyPool : Pool := mkPool [] [] [].

Record Layer : Type := mkLayer {
  Layer_Pool : gmap string Pool;
  Layer_finalHandler : option Final;
  Layer_parent : option Middleware
}.

Definition New : Layer := mkLayer ∅ None None.

Definition pool (phase : string) (l : Layer) : Pool :=
  default emptyPool (Layer_Pool l !! phase).

Definition push (priority : Priority) (h : Handler) (p : Pool) : Pool :=
  match priority with
  | Head => mkPool (Pool_Head p ++ [h]) (Pool_Normal p) (Pool_Tail p)
  | Normal => mkPool (Pool_Head p) (Pool_Normal p ++ [h]) (Pool_Tail p)
  | Tail => mkPool (Pool_Head p) (Pool_Normal p) (Pool_Tail p ++ [h])
  end.

(** Modelled from the spec: "register(phase, priority, handler) attaches a
    handler", after those of the same priority; "setFinalHandler(handler)
    sets the terminal fallback (at most one; last write wins)";
    "setParent(layer) establishes delegation". *)
Definition UsePriority (phase : string) (priority : Priority) (h : Handler)
    (l : Layer) : Layer :=
  mkLayer (<[phase := push priority h (pool phase l)]> (Layer_Pool l))
    (Layer_finalHandler l) (Layer_parent l).

Definition UseFinalHandler (fn : Final) (l : Layer) : Layer :=
  mkLayer (Layer_Pool l) (Some fn) (Layer_parent l).

Definition SetParent (parent : Middleware) (l : Layer) : Layer :=
  mkLayer (Layer_Pool l) (Layer_finalHandler l) (Some parent).

Definition handlers (phase : string) (l : Layer) : list Handler :=
  let p := pool phase l in Pool_Head p ++ Pool_Normal p ++ Pool_Tail p.

(** Where a phase ends. *)
Inductive Result : Type :=
  | Handled (resp : Response)
  | ReachedFinal (fn : Final) (r : Request)
  | Delegated (parent : Middleware) (r : Request)
  | Dropped (r : Request).

Section run.
(** What the bound router does with a request, given by the proxy. *)
Variable router : Request → Step.

Definition invoke (h : Handler) (r : Request) : Step :=
  match h with
  | HandlerFunc f => f r
  | RouterHandler => router r
  end.

Fixpoint chain (hs : list Handler) (r : Request) : Step :=
  match hs with
  | [] => Next r
  | h :: hs' =>
      match invoke h r with
      | Next r' => chain hs' r'
      | Stop resp => Stop resp
      end
  end.

(** Modelled from the spec: "run(phase, request, response, continuation)
    executes the phase". *)
Definition Run (l : Layer) (phase : string) (r : Request)
    (fallback : option Final) : Result :=
  match chain (handlers phase l) r with
  | Stop resp => Handled resp
  | Next r' =>
      match Layer_parent l with
      | Some parent => Delegated parent r'
      | None =>
          match Layer_finalHandler l, fallback with
          | Some fn, _ => ReachedFinal fn r'
          | None, Some fn => ReachedFinal fn r'
          | None, None => Dropped r'
          end
      end
  end.

End run.
End layer.

(** ** package router *)
Module router.
Import http.

(** Modelled from the spec: package [router] is not among the sources. The
    Router is "a method+pattern matcher"; "if a route matches, [it]
    dispatches to a route-specific handler", and "a request matching no
    route falls through (does not short-circuit)". [Route_Matches] is the
    matcher of the route's method and pattern. *)
Record Route : Type := mkRoute {
  Route_Method : string;
  Route_Pattern : string;
  Route_Matches : Request → bool;
  Route_Handler : Request → Response
}.

Record Router : Type := mkRouter {
  Router_Routes : list Route;
  Router_parent : option layer.Middleware
}.

Definition New : Router := mkRouter [] None.

Definition SetParent (parent : layer.Middleware) (rt : Router) : Router :=
  mkRouter (Router_Routes rt) (Some parent).

Definition Route_ (route : Route) (rt : Router) : Router :=
  mkRouter (Router_Routes rt ++ [route]) (Router_parent rt).

(** Modelled from the spec: the router as a handler of the layer it is
    registered in. *)
Definition HandleHTTP (rt : Router) (r : Request) : layer.Step :=
  match List.find (λ route, Route_Matches route r) (Router_Routes rt) with
  | Some route => layer.Stop (Route_Handler route r)
  | None => layer.Next r
  end.

End router.

(** ** package vinxi (vinxi.go) *)
Module vinxi.
Import http.

(** [forward.New(forward.PassHostHeader(true))], the error discarded. *)
Definition DefaultForwarder : forward.Forwarder :=
  fst (forward.New [forward.PassHostHeader true]).

Record Metadata : Type := mkMetadata {
  Metadata_ID : string;
  Metadata_Name : string;
  Metadata_Description : string;
  Metadata_Hostname : string;
  Metadata_Platform : string
}.

(** What [NewMetadata] reads from its environment: [utils.NewID()],
    [os.Hostname()] and [runtime.GOOS]. *)
Record Env : Type := mkEnv {
  Env_NewID : string;
  Env_Hostname : string;
  Env_GOOS : string
}.

Definition NewMetadata (env : Env) : Metadata :=
  mkMetadata (Env_NewID env) "" "" (Env_Hostname env) (Env_GOOS env).

(** The [Vinxi] struct, with the layer and the router its pointers lead to. *)
Record Vinxi : Type := mkVinxi {
  Vinxi_Metadata : Metadata;
  Vinxi_Layer : layer.Layer;
  Vinxi_Router : router.Router
}.

Definition with_Layer (f : layer.Layer → layer.Layer) (v : Vinxi) : Vinxi :=
  mkVinxi (Vinxi_Metadata v) (f (Vinxi_Layer v)) (Vinxi_Router v).

Definition with_Router (f : router.Router → router.Router) (v : Vinxi) : Vinxi :=
  mkVinxi (Vinxi_Metadata v) (Vinxi_Layer v) (f (Vinxi_Router v)).

(** [v.Layer.UseFinalHandler(fn); return v] *)
Definition UseFinalHandler (fn : layer.Final) (v : Vinxi) : Vinxi :=
  with_Layer (layer.UseFinalHandler fn) v.

(** [v.Layer.Use(layer.RequestPhase, handler...)], one handler at a time. *)
Definition Use (handler : layer.Handler) (v : Vinxi) : Vinxi :=
  with_Layer (layer.UsePriority layer.RequestPhase layer.Normal handler) v.

(** [v.Router.Route(method, path)], with the route it leads to. *)
Definition Route_ (route : router.Route) (v : Vinxi) : Vinxi :=
  with_Router (router.Route_ route) v.

(** [v.Layer.SetParent(parent)] *)
Definition SetParent (parent : layer.Middleware) (v : Vinxi) : Vinxi :=
  with_Layer (layer.SetParent parent) v.

Definition New (env : Env) : Vinxi :=
  let v := mkVinxi (NewMetadata env) layer.New router.New in
  (* v.Router.SetParent(v.Layer) *)
  let v := with_Router (router.SetParent layer.RootLayer) v in
  (* v.Layer.UsePriority(layer.RequestPhase, layer.Tail, v.Router) *)
  let v := with_Layer
             (layer.UsePriority layer.RequestPhase layer.Tail layer.RouterHandler) v in
  (* v.UseFinalHandler(DefaultForwarder) *)
  UseFinalHandler (layer.Forward DefaultForwarder) v.

(** The request as [ServeHTTP] hands it to the layer. *)
Definition prepare (r : Request) : Request :=
  (* context.Set(r, "vinxi.host", r.Host) *)
  let r := context.Set_ r "vinxi.host" (config.VString (Request_Host r)) in
  (* r.URL.Host = r.Host *)
  set_URL_Host (Request_Host r) r.

(** [v.Layer.Run("request", w, r, nil)] after the two assignments; what is
    written to [w] is the result. *)
Definition ServeHTTP (v : Vinxi) (r : Request) : layer.Result :=
  layer.Run (router.HandleHTTP (Vinxi_Router v)) (Vinxi_Layer v)
    "request" (prepare r) None.

End vinxi.

(** ** Vocabulary of the statements *)

(** The registry after the registrations [rs], first to last, starting from
    the empty [Rules] of the package. *)
Definition registered (rs : list rule.Info) : gmap string rule.Info :=
  foldl (λ Rules r, rule.Register r Rules) rule.Rules0 rs.

(** What a removal tells its caller. *)
Inductive Signal : Type := Success | NotFound | RemovalFailed.

Definition signal_of (c : manager.Call) : option Signal :=
  match c with
  | manager.SendNoContent => Some Success
  | manager.SendNotFound _ => Some NotFound
  | manager.SendError 500 _ => Some RemovalFailed
  | _ => None
  end.

(** What a removal by ID aims at: nothing, when an ID on its path names no
    entity ([inl], with the kind of the missing entity), or the mutation of
    the store that removes the entity found. *)
Definition Target (M : Type) : Type := (string + (M → M * bool))%type.

Definition expected_signal {M} (t : Target M) (m : M) : Signal :=
  match t with
  | inl _ => NotFound
  | inr remove => if (remove m).2 then Success else RemovalFailed
  end.

Definition expected_store {M} (t : Target M) (m : M) : M :=
  match t with
  | inl _ => m
  | inr remove => (remove m).1
  end.

(** [o] returns, having made exactly one more call on the context. *)
Definition replies_with {M} (ctx : manager.Context M)
    (o : outcome (manager.Context M)) (c : manager.Call) (m : M) : Prop :=
  ∃ ctx', o = Returns ctx' ∧
          manager.Context_Calls ctx' = manager.Context_Calls ctx ++ [c] ∧
          manager.Context_Manager ctx' = m.

(** The targets of the five removals, read off the store before the call. *)
Section targets.
Import manager.
Context {M : Type} `{!Backend M}.

Definition instance_target (instance : string) (m : M) : Target M :=
  match Manager_GetInstance instance m with
  | None => inl "Instance"
  | Some i => inr (Manager_RemoveInstance (Instance_ID i))
  end.

Definition scoped_target (instance scope : string)
    (leaf : Instance → Scope → Target M) (m : M) : Target M :=
  match Manager_GetInstance instance m with
  | None => inl "Instance"
  | Some i =>
      match find_scope scope i with
      | None => inl "Scope"
      | Some s => leaf i s
      end
  end.

Definition scope_target (instance scope : string) : M → Target M :=
  scoped_target instance scope
    (λ i s, inr (Instance_RemoveScope i (Scope_ID s))).

Definition plugin_target (instance scope plugin : string) : M → Target M :=
  scoped_target instance scope
    (λ _ s, match find_plugin plugin (Scope_Plugins s) with
            | None => inl "Plugin"
            | Some p => inr (Scope_RemovePlugin s (plugin.Plugin_ID p))
            end).

Definition rule_target (instance scope rule : string) : M → Target M :=
  scoped_target instance scope
    (λ _ s, match find_rule rule s with
            | None => inl "Rule"
            | Some r => inr (Scope_RemoveRule s (rule.Rule_ID r))
            end).

Definition manager_plugin_target (plugin : string) (m : M) : Target M :=
  match find_plugin plugin (Manager_Plugins m) with
  | None => inl "Plugin"
  | Some p => inr (Manager_RemovePlugin (plugin.Plugin_ID p))
  end.

(** The removal [o], started from [ctx], tells its caller what its target
    [t] calls for, and leaves the store the target's mutation gives. *)
Definition signals (ctx : Context M) (o : outcome (Context M)) (t : Target M) : Prop :=
  ∃ c, replies_with ctx o c (expected_store t (Context_Manager ctx)) ∧
       signal_of c = Some (expected_signal t (Context_Manager ctx)).

End targets.

(** A backend over a store of plugins, for running the handlers: [UsePlugin]
    appends, a removal drops the plugins of that ID and tells whether there
    was one, and a body is its plugin name, with no parameters. *)
Definition remove_by_id (id : string) (ps : plugin.Layer) : plugin.Layer * bool :=
  (filter (λ p, plugin.Plugin_ID p ≠ id) ps,
   bool_decide (id ∈ plugin.Plugin_ID <$> ps)).

Definition list_backend : manager.Backend plugin.Layer :=
  {| manager.Manager_RemoveInstance := λ _ m, (m, false);
     manager.Manager_RemovePlugin := remove_by_id;
     manager.Manager_UsePlugin := λ p m, m ++ [p];
     manager.Manager_Plugins := λ m, m;
     manager.Manager_GetInstance := λ id m,
       if decide (id = "i1")
       then Some (manager.mkInstance "i1" "edge" ""
                    [manager.mkScope "s1" "api" [rule.mkRule "r1" "path" "" ∅] m])
       else None;
     manager.Instance_RemoveScope := λ _ id m, ([], bool_decide (id = "s1"));
     manager.Scope_RemovePlugin := λ _, remove_by_id;
     manager.Scope_RemoveRule := λ _ id m, (m, bool_decide (id = "r1"));
     manager.ParseBody := λ body,
       if decide (body = "{") then inr "unexpected end of JSON input"
       else inl (manager.mkdata body ∅) |}.

Definition sample_plugin (enabled : bool) : plugin.Plugin :=
  plugin.mkPlugin "p1" "auth" "basic authentication" enabled ∅ ∅.

Definition sample_rule_info (description : string) : rule.Info :=
  rule.mkInfo "path" description []
    (Some (λ opts, rule.mkRule "r1" "path" description opts)).

Definition sample_plugin_info : plugin.Info :=
  plugin.mkInfo "auth" "basic authentication" []
    (Some (λ opts, if decide (opts = ∅) then inr "missing credentials"
                   else inl (sample_plugin true))).

Definition sample_request : http.Request :=
  http.mkRequest "GET" "example.org" (http.mkURL "" "" "/api/x") ∅.

Definition sample_env : vinxi.Env := vinxi.mkEnv "v1" "proxy-1" "linux".

(** ** package manager: the listing routes of api.go *)

(** [for _, x := range xs { buf = append(buf, f(x)) }], with an [f] that
    may panic. *)
Fixpoint range_append_o {A B} (f : A → outcome B) (xs : list A) (buf : list B)
    : outcome (list B) :=
  match xs with
  | [] => Returns buf
  | x :: xs' =>
      y ← f x;
      range_append_o f xs' (buf ++ [y])
  end.

Module listing.
Import manager.

(** [Manager.Scopes()] and [Manager.Instances()], whose bodies are not among
    the sources, over the store [M]. *)
Class Listing (M : Type) : Type := {
  Manager_Scopes : M → list Scope;
  Manager_Instances : M → list Instance
}.

Section handlers.
Context {M : Type} `{!Backend M} `{!Listing M}.

(** [createInstance(instance, ctx)]; [ctx] is not used. *)
Definition createInstance (instance : Instance) (ctx : Context M)
    : outcome JSONInstance :=
  scopes ← api.createScopes (Instance_Scopes instance);
  Returns {| JSONInstance_ID := Instance_ID instance;
             JSONInstance_Name := Instance_Name instance;
             JSONInstance_Description := Instance_Description instance;
             JSONInstance_Metadata := [] (* not in the literal: zero value *);
             JSONInstance_Scopes := scopes |}.

(** [list := []JSONInstance{}; for _, instance := range instances
     { list = append(list, createInstance(instance, ctx)) }; return list] *)
Definition createInstances (instances : list Instance) (ctx : Context M)
    : outcome (list JSONInstance) :=
  range_append_o (λ instance, createInstance instance ctx) instances [].

(** [GET /scopes] *)
Definition GET_scopes (ctx : Context M) : outcome (Context M) :=
  scopes ← api.createScopes (Manager_Scopes (Context_Manager ctx));
  Returns (call (SendJSON (JScopes scopes)) ctx).

(** [GET /scopes/:scope] and [GET /instances/:instance/scopes/:scope] *)
Definition GET_scope (ctx : Context M) : outcome (Context M) :=
  match Context_Scope ctx with
  | None => Panics nil_dereference
  | Some scope =>
      scope ← api.createScope scope;
      Returns (call (SendJSON (JScope scope)) ctx)
  end.

(** [GET /instances] *)
Definition GET_instances (ctx : Context M) : outcome (Context M) :=
  instances ← createInstances (Manager_Instances (Context_Manager ctx)) ctx;
  Returns (call (SendJSON (JInstances instances)) ctx).

(** [GET /instances/:instance] *)
Definition GET_instance (ctx : Context M) : outcome (Context M) :=
  match Context_Instance ctx with
  | None => Panics nil_dereference
  | Some instance =>
      instance ← createInstance instance ctx;
      Returns (call (SendJSON (JInstance instance)) ctx)
  end.

(** [GET /instances/:instance/scopes] *)
Definition GET_instance_scopes (ctx : Context M) : outcome (Context M) :=
  match Context_Instance ctx with
  | None => Panics nil_dereference
  | Some instance =>
      scopes ← api.createScopes (Instance_Scopes instance);
      Returns (call (SendJSON (JScopes scopes)) ctx)
  end.

(** [GET /instances/:instance/scopes/:scope/plugins] *)
Definition GET_scope_plugins (ctx : Context M) : outcome (Context M) :=
  match Context_Scope ctx with
  | None => Panics nil_dereference
  | Some scope =>
      plugins ← api.createPlugins (Scope_Plugins scope);
      Returns (call (SendJSON (JPlugins plugins)) ctx)
  end.

(** [GET /instances/:instance/scopes/:scope/plugins/:plugin] *)
Definition GET_scope_plugin (ctx : Context M) : outcome (Context M) :=
  match Context_Plugin ctx with
  | None => Panics nil_dereference
  | Some plugin => Returns (call (SendJSON (JPlugin (api.createPlugin plugin))) ctx)
  end.

(** [GET /instances/:instance/scopes/:scope/rules] *)
Definition GET_rules (ctx : Context M) : outcome (Context M) :=
  match Context_Scope ctx with
  | None => Panics nil_dereference
  | Some scope =>
      rules ← api.createRules scope;
      Returns (call (SendJSON (JRules rules)) ctx)
  end.

(** [GET /instances/:instance/scopes/:scope/rules/:rule] *)
Definition GET_rule (ctx : Context M) : outcome (Context M) :=
  match Context_Rule ctx with
  | None => Panics nil_dereference
  | Some rule => Returns (call (SendJSON (JRule (api.createRule rule))) ctx)
  end.

(** The [GET] handlers of [api.go] that read the store. *)
Definition GET_handlers : list (Context M → outcome (Context M)) :=
  [api.GET_plugins; GET_scopes; GET_scope; GET_instances; GET_instance;
   GET_instance_scopes; GET_scope_plugins; GET_scope_plugin; GET_rules; GET_rule].

End handlers.
End listing.

(** The panic of a store at index 0 of an empty slice. *)
Definition out_of_range_0_0 : string :=
  "runtime error: index out of range [0] with length 0".

(** The view [createScope] gives of a scope without plugins. *)
Definition plain_scope_view (scope : manager.Scope) : manager.JSONScope :=
  {| manager.JSONScope_ID := manager.Scope_ID scope;
     manager.JSONScope_Name := manager.Scope_Name scope;
     manager.JSONScope_Rules := manager.api.createRule <$> manager.Scope_Rules scope;
     manager.JSONScope_Plugins := [] |}.

(** No scope of the list holds a plugin. *)
Definition no_plugins (scopes : list manager.Scope) : bool :=
  forallb (λ s, bool_decide (manager.Scope_Plugins s = [])) scopes.

(** The view [createInstance] gives of an instance whose scopes hold no
    plugin. *)
Definition plain_instance_view (instance : manager.Instance) : manager.JSONInstance :=
  {| manager.JSONInstance_ID := manager.Instance_ID instance;
     manager.JSONInstance_Name := manager.Instance_Name instance;
     manager.JSONInstance_Description := manager.Instance_Description instance;
     manager.JSONInstance_Metadata := [];
     manager.JSONInstance_Scopes := plain_scope_view <$> manager.Instance_Scopes instance |}.

(** The calls [ctx'] has beyond those of [ctx]. *)
Definition new_calls {M} (ctx ctx' : manager.Context M) : list manager.Call :=
  drop (length (manager.Context_Calls ctx)) (manager.Context_Calls ctx').

(** A listing backend over the store of plugins: one scope, holding the
    plugins of the store, in one instance. *)
Definition list_listing : listing.Listing plugin.Layer :=
  {| listing.Manager_Scopes := λ m,
       [manager.mkScope "s1" "api" [rule.mkRule "r1" "path" "" ∅] m];
     listing.Manager_Instances := λ m,
       [manager.mkInstance "i1" "edge" ""
          [manager.mkScope "s1" "api" [rule.mkRule "r1" "path" "" ∅] m]] |}.

(** * Theorems *)

(** ** Facts about the rule registry *)
Section rule_registry.
Import rule.
Implicit Types (Rules : gmap string Info) (r : Info) (name : string).

Lemma Exists_true name Rules : Exists name Rules = true ↔ is_Some (Rules !! name).
Proof.
  unfold Exists. destruct (Rules !! name) as [i|]; split; intros H; done.
Qed.

Lemma Exists_false name Rules : Exists name Rules = false ↔ Rules !! name = None.
Proof. unfold Exists. by destruct (Rules !! name). Qed.

Lemma Register_lookup r Rules : Register r Rules !! Info_Name r = Some r.
Proof. unfold Register. apply lookup_insert_eq. Qed.

Lemma Register_lookup_ne r name Rules :
  Info_Name r ≠ name → Register r Rules !! name = Rules !! name.
Proof. intros Hne. unfold Register. by apply lookup_insert_ne. Qed.

Lemma Register_twice r1 r2 Rules :
  Info_Name r1 = Info_Name r2 →
  Register r2 (Register r1 Rules) = Register r2 Rules.
Proof. intros Heq. unfold Register. rewrite Heq. apply insert_insert_eq. Qed.

Lemma Init_lookup name opts Rules r :
  Rules !! name = Some r →
  Init name opts Rules =
    match Info_Factory r with
    | Some factory => Returns (factory opts)
    | None => Panics nil_dereference
    end.
Proof. intros H. unfold Init, Exists, GetInfo. by rewrite H. Qed.

Lemma Init_missing name opts Rules :
  Rules !! name = None → Init name opts Rules = Panics (missing_rule name).
Proof. intros H. unfold Init, Exists. by rewrite H. Qed.

Lemma foldl_Register_lookup_ne (rs : list Info) name Rules :
  (∀ r, r ∈ rs → Info_Name r ≠ name) →
  foldl (λ Rules r, Register r Rules) Rules rs !! name = Rules !! name.
Proof.
  revert Rules. induction rs as [|r rs IH]; intros Rules Hne; simpl; [done|].
  rewrite IH.
  - apply Register_lookup_ne, Hne. by left.
  - intros r' Hr'. apply Hne. by right.
Qed.

Lemma registered_lookup_None (rs : list Info) name :
  (∀ r, r ∈ rs → Info_Name r ≠ name) → registered rs !! name = None.
Proof.
  intros Hne. unfold registered. by rewrite foldl_Register_lookup_ne.
Qed.

Lemma Panics_not_returns {A} (msg : string) : ¬ returns (@Panics A msg).
Proof. by intros [a Ha]. Qed.

(** C1, as the claim has it, fails: initializing the unregistered rule
    "acl" on the empty registry panics and hands no result to the caller. *)
Lemma Init_unknown_counterexample :
  registered [] !! "acl" = None ∧
  Init "acl" ∅ (registered []) = Panics "vinxi: rule 'acl' does not exists." ∧
  ¬ returns (Init "acl" ∅ (registered [])).
Proof.
  split; [done|]. split; [done|]. apply Panics_not_returns.
Qed.

(** C1, amended: for every rule name not present in the registry,
    [Init name opts] panics with the message "vinxi: rule '<name>' does not
    exists." and returns nothing to its caller, its only result being a
    [Rule]; a registered name with a factory returns the rule the factory
    builds. *)
Theorem Init_unknown_panics name (opts : config.Config) Rules :
  Rules !! name = None →
  Init name opts Rules = Panics (missing_rule name) ∧
  aborts (Init name opts Rules) ∧
  ¬ returns (Init name opts Rules).
Proof.
  intros Hnone. rewrite (Init_missing _ _ _ Hnone).
  split; [done|]. split; [by eexists | apply Panics_not_returns].
Qed.

Lemma Init_unknown_panics_witness :
  registered [sample_rule_info "match a path"] !! "acl" = None ∧
  Init "acl" ∅ (registered [sample_rule_info "match a path"])
    = Panics "vinxi: rule 'acl' does not exists.".
Proof.
  assert (Hnone : registered [sample_rule_info "match a path"] !! "acl" = None)
    by (vm_compute; reflexivity).
  split; [exact Hnone|].
  exact (proj1 (Init_unknown_panics "acl" ∅ _ Hnone)).
Defined.

(** C7: registry round trip. After [Register r] the lookups agree with the
    registration: [Exists] is true, [Get] returns the factory of [r] and
    [GetInfo] returns [r]; and a name that none of the registrations made
    so far carries does not exist and has the nil factory. *)
Theorem Register_round_trip r Rules (rs : list Info) name :
  (Exists (Info_Name r) (Register r Rules) = true ∧
   Get (Info_Name r) (Register r Rules) = Info_Factory r ∧
   GetInfo (Info_Name r) (Register r Rules) = r) ∧
  ((∀ r', r' ∈ rs → Info_Name r' ≠ name) →
   Exists name (registered rs) = false ∧ Get name (registered rs) = None).
Proof.
  split.
  - unfold Exists, Get, GetInfo. by rewrite Register_lookup.
  - intros Hne. pose proof (registered_lookup_None rs name Hne) as Hnone.
    unfold Exists, Get. by rewrite Hnone.
Qed.

Lemma Register_round_trip_witness :
  Exists "acl" (registered [sample_rule_info "match a path"]) = false ∧
  Get "acl" (registered [sample_rule_info "match a path"]) = None.
Proof.
  apply (Register_round_trip (sample_rule_info "")
           ∅ [sample_rule_info "match a path"] "acl").
  intros r' Hr'. apply list_elem_of_singleton in Hr'. subst r'. simpl.
  discriminate.
Defined.

(** C10: registration is last-write-wins. When two Infos are registered
    under one name, [Get], [GetInfo] and [Init] observe the second only, and
    the registry is the one the second registration alone gives: the earlier
    entry is replaced, and nothing is rejected. *)
Theorem Register_last_write_wins r1 r2 Rules (opts : config.Config) :
  Info_Name r1 = Info_Name r2 →
  let Rules' := Register r2 (Register r1 Rules) in
  Get (Info_Name r1) Rules' = Info_Factory r2 ∧
  GetInfo (Info_Name r1) Rules' = r2 ∧
  Init (Info_Name r1) opts Rules' =
    match Info_Factory r2 with
    | Some factory => Returns (factory opts)
    | None => Panics nil_dereference
    end ∧
  Rules' = Register r2 Rules.
Proof.
  intros Heq Rules'.
  assert (Hlook : Rules' !! Info_Name r1 = Some r2).
  { unfold Rules'. rewrite Heq. apply Register_lookup. }
  split; [by unfold Get; rewrite Hlook|].
  split; [by unfold GetInfo; rewrite Hlook|].
  split; [by apply Init_lookup|].
  by apply Register_twice.
Qed.

Lemma Register_last_write_wins_witness :
  GetInfo "path" (Register (sample_rule_info "new") (Register (sample_rule_info "old") ∅))
    = sample_rule_info "new" ∧
  Init "path" ∅ (Register (sample_rule_info "new") (Register (sample_rule_info "old") ∅))
    = Returns (mkRule "r1" "path" "new" ∅).
Proof.
  pose proof (Register_last_write_wins (sample_rule_info "old")
                (sample_rule_info "new") ∅ ∅ eq_refl) as H.
  simpl in H. destruct H as (_ & Hinfo & Hinit & _).
  split; [exact Hinfo | exact Hinit].
Defined.

End rule_registry.

(** ** Facts about the loops *)
Section loops.
Context {A B : Type}.

Lemma range_append_fmap (f : A → B) (xs : list A) (buf : list B) :
  range_append f xs buf = buf ++ (f <$> xs).
Proof.
  revert buf. induction xs as [|x xs IH]; intros buf; simpl.
  - by rewrite app_nil_r.
  - by rewrite IH, <- app_assoc.
Qed.

Lemma index_assign_lt (s : list B) (i : nat) (v : B) :
  i < length s → index_assign s i v = Returns (<[i := v]> s).
Proof. intros Hlt. unfold index_assign. by rewrite decide_True. Qed.

Lemma index_assign_ge (s : list B) (i : nat) (v : B) :
  length s ≤ i → index_assign s i v = Panics (index_out_of_range i (length s)).
Proof. intros Hge. unfold index_assign. rewrite decide_False; [done | lia]. Qed.

(** A loop that stores at [i], [i+1], ... into a slice long enough fills
    that stretch of the slice with the images, in order. *)
Lemma range_assign_fits (f : A → B) (xs : list A) (i : nat) (buf : list B) :
  i + length xs ≤ length buf →
  range_assign (λ x, Returns (f x)) xs i buf
    = Returns (take i buf ++ (f <$> xs) ++ drop (i + length xs) buf).
Proof.
  revert i buf. induction xs as [|x xs IH]; intros i buf Hlen; simpl in *.
  - by rewrite Nat.add_0_r, take_drop.
  - unfold mbind. rewrite index_assign_lt by lia. simpl.
    rewrite IH by (rewrite length_insert; lia). f_equal.
    rewrite (take_S_r _ i (f x)) by (apply list_lookup_insert_eq; lia).
    rewrite take_insert_ge by lia.
    rewrite drop_insert_lt by lia.
    rewrite <- app_assoc. simpl.
    by replace (S (i + length xs)) with (i + S (length xs)) by lia.
Qed.

(** A loop that stores at index [0] of an empty slice panics at once. *)
Lemma range_assign_empty (f : A → B) (x : A) (xs : list A) :
  range_assign (λ x, Returns (f x)) (x :: xs) 0 []
    = Panics (index_out_of_range 0 0).
Proof. reflexivity. Qed.

End loops.

(** ** The JSON views of package manager *)
Section views.
Import manager.

Lemma controller_createPlugins_fmap (plugins : list plugin.Plugin) :
  controller.createPlugins plugins = controller.createPlugin <$> plugins.
Proof. unfold controller.createPlugins. by rewrite range_append_fmap. Qed.

Lemma api_createPlugins_nil : api.createPlugins [] = Returns [].
Proof. reflexivity. Qed.

Lemma api_createPlugins_cons p (ps : list plugin.Plugin) :
  api.createPlugins (p :: ps) = Panics (index_out_of_range 0 0).
Proof. unfold api.createPlugins. apply range_assign_empty. Qed.

(** The sibling loops of [api.go], which size the slice with [make] before
    they store by index, return one entry per element. *)
Lemma api_createRules_fmap (scope : Scope) :
  api.createRules scope = Returns (api.createRule <$> Scope_Rules scope).
Proof.
  unfold api.createRules. rewrite range_assign_fits.
  - rewrite take_0. simpl. rewrite drop_ge by (rewrite length_replicate; lia).
    by rewrite app_nil_r.
  - rewrite length_replicate. lia.
Qed.

Lemma index_out_of_range_0_0 :
  index_out_of_range 0 0 = "runtime error: index out of range [0] with length 0".
Proof. vm_compute. reflexivity. Qed.

(** C9: the two [createPlugins] do not agree. On every non-empty list the
    one of [api.go] stores at index 0 of the empty slice it has just made and
    panics with an index out of range, while the one of the controller file
    returns one JSON entry per plugin, in input order; they agree on the
    empty list only. This is the code at the failing input [[p]] and at
    every longer one. *)
Theorem createPlugins_diverge p (ps : list plugin.Plugin) :
  api.createPlugins (p :: ps)
    = Panics "runtime error: index out of range [0] with length 0" ∧
  controller.createPlugins (p :: ps) = controller.createPlugin <$> (p :: ps) ∧
  length (controller.createPlugins (p :: ps)) = length (p :: ps) ∧
  api.createPlugins [] = Returns (controller.createPlugins []).
Proof.
  split; [by rewrite api_createPlugins_cons, index_out_of_range_0_0|].
  split; [apply controller_createPlugins_fmap|].
  split; [|done].
  by rewrite controller_createPlugins_fmap, length_fmap.
Qed.

(** C5: the serialized Plugin does not carry the enabled flag. Both
    [createPlugin] copy the ID, name, description, configuration and
    metadata, and leave [Enabled] at its zero value: for the enabled plugin
    "p1" the JSON entry says [false]. *)
Theorem createPlugin_drops_enabled :
  plugin.Plugin_IsEnabled (sample_plugin true) = true ∧
  JSONPlugin_Enabled (api.createPlugin (sample_plugin true)) = false ∧
  JSONPlugin_Enabled (controller.createPlugin (sample_plugin true)) = false ∧
  (∀ p, JSONPlugin_Enabled (api.createPlugin p) = false ∧
        JSONPlugin_Enabled (controller.createPlugin p) = false ∧
        api.createPlugin p = controller.createPlugin p ∧
        JSONPlugin_ID (api.createPlugin p) = plugin.Plugin_ID p ∧
        JSONPlugin_Name (api.createPlugin p) = plugin.Plugin_Name p ∧
        JSONPlugin_Description (api.createPlugin p) = plugin.Plugin_Description p ∧
        JSONPlugin_Config (api.createPlugin p) = plugin.Plugin_Config p ∧
        JSONPlugin_Metadata (api.createPlugin p) = plugin.Plugin_Metadata p).
Proof. repeat split. Qed.

End views.

(** ** The catalogue *)
Section catalogue.
Import manager.
Context {M : Type}.

Lemma values_of_entries {V} (m : gmap string V) (entries : list (string * V)) :
  entries ≡ₚ map_to_list m →
  (∀ v, v ∈ entries.*2 ↔ ∃ name, m !! name = Some v) ∧
  length (entries.*2) = size m.
Proof.
  intros Hperm. split.
  - intros v. rewrite list_elem_of_fmap. split.
    + intros [[name v'] [-> Hin]]. exists name.
      rewrite Hperm in Hin. by apply elem_of_map_to_list in Hin.
    + intros [name Hlook]. exists (name, v). split; [done|].
      rewrite Hperm. by apply elem_of_map_to_list.
  - by rewrite length_fmap, Hperm, length_map_to_list.
Qed.

(** C8: the catalogue holds the Info of every registered rule and of every
    registered plugin, and nothing else. Whatever order the two [range]
    loops visit the registries in, each visiting every entry once,
    [GET /catalog] sends one catalogue whose rules are exactly the values of
    [rule.Rules] and whose plugins are exactly the values of
    [plugin.Plugins], one per registered name. *)
Theorem GET_catalog_enumerates (Rules : gmap string rule.Info)
    (Plugins : gmap string plugin.Info)
    (rules : list (string * rule.Info)) (plugins : list (string * plugin.Info))
    (ctx : Context M) :
  rules ≡ₚ map_to_list Rules →
  plugins ≡ₚ map_to_list Plugins →
  ∃ rs ps,
    api.GET_catalog rules plugins ctx = call (SendJSON (JCatalog rs ps)) ctx ∧
    (∀ info, info ∈ rs ↔ ∃ name, Rules !! name = Some info) ∧
    (∀ info, info ∈ ps ↔ ∃ name, Plugins !! name = Some info) ∧
    length rs = size Rules ∧
    length ps = size Plugins.
Proof.
  intros Hrules Hplugins.
  destruct (values_of_entries Rules rules Hrules) as [Hr Hrlen].
  destruct (values_of_entries Plugins plugins Hplugins) as [Hp Hplen].
  exists (rules.*2), (plugins.*2).
  split; [|done].
  unfold api.GET_catalog. by rewrite !range_append_fmap.
Qed.

End catalogue.

Lemma GET_catalog_enumerates_witness :
  ∃ rs ps,
    manager.api.GET_catalog
      (map_to_list (registered [sample_rule_info "match a path"]))
      (map_to_list (plugin.Register sample_plugin_info ∅))
      (manager.mkContext ([] : plugin.Layer) None None None None "" [])
    = manager.call (manager.SendJSON (manager.JCatalog rs ps))
        (manager.mkContext ([] : plugin.Layer) None None None None "" []) ∧
    length rs = 1 ∧ length ps = 1.
Proof.
  destruct (GET_catalog_enumerates (M := plugin.Layer)
              (registered [sample_rule_info "match a path"])
              (plugin.Register sample_plugin_info ∅) _ _
              (manager.mkContext [] None None None None "" [])
              (reflexivity _) (reflexivity _))
    as (rs & ps & Hsend & _ & _ & Hrs & Hps).
  exists rs, ps. split; [exact Hsend|]. split; [exact Hrs | exact Hps].
Defined.

(** ** Creating a plugin *)
Section create.
Import manager.
Context {M : Type} `{!Backend M}.

Lemma call_Manager (c : Call) (ctx : Context M) :
  Context_Manager (call c ctx) = Context_Manager ctx.
Proof. reflexivity. Qed.

Lemma call_Calls (c : Call) (ctx : Context M) :
  Context_Calls (call c ctx) = Context_Calls ctx ++ [c].
Proof. reflexivity. Qed.

Lemma Create_parsed Plugins (ctx : Context M) plu :
  ParseBody (Context_Body ctx) = inl plu →
  data_Name plu ≠ "" →
  controller.Create Plugins ctx =
    match plugin.Get (data_Name plu) Plugins with
    | None => call (SendNotFound "Plugin not found") ctx
    | Some factory =>
        match factory (data_Params plu) with
        | inr err => call (SendError 400 ("Cannot create plugin: " ++ err)%string) ctx
        | inl instance =>
            call (Send (JPlugin (controller.createPlugin instance)))
              (Context_UsePlugin instance ctx)
        end
    end.
Proof.
  intros Hparse Hname. unfold controller.Create. rewrite Hparse.
  by rewrite decide_False.
Qed.

(** C2: a creation that fails inserts nothing. For a request whose body
    names a factory: when the name is not registered, [Create] answers
    "Plugin not found" (the UnknownFactory signal), its only call on the
    context, so [UsePlugin] is not called and the manager is as it was; when
    the registered factory rejects the configuration with [err], [Create]
    answers 400 "Cannot create plugin: err" (the InvalidConfig signal), again
    its only call, and the manager is as it was. *)
Theorem Create_failure_inserts_nothing (Plugins : gmap string plugin.Info)
    (ctx : Context M) (plu : data) :
  ParseBody (Context_Body ctx) = inl plu →
  data_Name plu ≠ "" →
  let ctx' := controller.Create Plugins ctx in
  (Plugins !! data_Name plu = None →
     Context_Calls ctx' = Context_Calls ctx ++ [SendNotFound "Plugin not found"] ∧
     Context_Manager ctx' = Context_Manager ctx ∧
     Manager_Plugins (Context_Manager ctx') = Manager_Plugins (Context_Manager ctx)) ∧
  (∀ info factory err,
     Plugins !! data_Name plu = Some info →
     plugin.Info_Factory info = Some factory →
     factory (data_Params plu) = inr err →
     Context_Calls ctx' =
       Context_Calls ctx ++ [SendError 400 ("Cannot create plugin: " ++ err)%string] ∧
     Context_Manager ctx' = Context_Manager ctx ∧
     Manager_Plugins (Context_Manager ctx') = Manager_Plugins (Context_Manager ctx)).
Proof.
  intros Hparse Hname ctx'. unfold ctx'.
  rewrite (Create_parsed _ _ _ Hparse Hname). unfold plugin.Get. split.
  - intros Hnone. by rewrite Hnone.
  - intros info factory err Hlook Hfactory Hreject.
    by rewrite Hlook, Hfactory, Hreject.
Qed.

(** A creation that succeeds does insert: the instance goes through
    [UsePlugin] and is then sent back. *)
Lemma Create_success Plugins (ctx : Context M) plu info factory instance :
  ParseBody (Context_Body ctx) = inl plu →
  data_Name plu ≠ "" →
  Plugins !! data_Name plu = Some info →
  plugin.Info_Factory info = Some factory →
  factory (data_Params plu) = inl instance →
  let ctx' := controller.Create Plugins ctx in
  Context_Calls ctx' =
    Context_Calls ctx ++
      [UsePlugin instance; Send (JPlugin (controller.createPlugin instance))] ∧
  Context_Manager ctx' = Manager_UsePlugin instance (Context_Manager ctx).
Proof.
  intros Hparse Hname Hlook Hfactory Hbuilt ctx'. unfold ctx'.
  rewrite (Create_parsed _ _ _ Hparse Hname). unfold plugin.Get.
  rewrite Hlook, Hfactory, Hbuilt. simpl. by rewrite <- app_assoc.
Qed.

End create.

Lemma Create_failure_inserts_nothing_witness :
  let Plugins := plugin.Register sample_plugin_info ∅ in
  let unknown := manager.mkContext [sample_plugin false] None None None None "cache" [] in
  let rejected := manager.mkContext [sample_plugin false] None None None None "auth" [] in
  (manager.Context_Calls (manager.controller.Create (Backend0 := list_backend) Plugins unknown)
     = [manager.SendNotFound "Plugin not found"] ∧
   manager.Context_Manager (manager.controller.Create (Backend0 := list_backend) Plugins unknown)
     = [sample_plugin false]) ∧
  (manager.Context_Calls (manager.controller.Create (Backend0 := list_backend) Plugins rejected)
     = [manager.SendError 400 "Cannot create plugin: missing credentials"] ∧
   manager.Context_Manager (manager.controller.Create (Backend0 := list_backend) Plugins rejected)
     = [sample_plugin false]).
Proof.
  intros Plugins unknown rejected. split.
  - destruct (Create_failure_inserts_nothing (Backend0 := list_backend) Plugins unknown
                (manager.mkdata "cache" ∅) eq_refl ltac:(discriminate))
      as [Hunknown _].
    destruct (Hunknown eq_refl) as (Hcalls & Hmanager & _).
    split; [exact Hcalls | exact Hmanager].
  - destruct (Create_failure_inserts_nothing (Backend0 := list_backend) Plugins rejected
                (manager.mkdata "auth" ∅) eq_refl ltac:(discriminate))
      as [_ Hrejected].
    destruct (Hrejected sample_plugin_info _ "missing credentials" eq_refl eq_refl eq_refl)
      as (Hcalls & Hmanager & _).
    split; [exact Hcalls | exact Hmanager].
Defined.

(** ** Removal by ID *)
Section removals.
Import manager.
Context {M : Type} `{!Backend M}.
Implicit Types (ctx : Context M) (t : Target M).

Lemma signals_NotFound ctx what :
  signals ctx (Returns (call (SendNotFound (what ++ " not found")%string) ctx))
    (inl what).
Proof.
  eexists. split.
  - eexists. split; [reflexivity|]. by split.
  - reflexivity.
Qed.

(** The shape the five handlers share: call the removal, then answer
    no-content when it returned [true] and 500 when it returned [false]. *)
Lemma signals_handler ctx (remove : M → M * bool) msg :
  signals ctx
    (let '(ctx', ok) := mutate remove ctx in
     if ok : bool then Returns (call SendNoContent ctx')
     else Returns (call (SendError 500 msg) ctx'))
    (inr remove).
Proof.
  unfold signals, replies_with, mutate, expected_store, expected_signal.
  destruct (remove (Context_Manager ctx)) as [m ok]. simpl.
  destruct ok; (eexists; split; [eexists; split; [reflexivity|by split]|reflexivity]).
Qed.

Lemma DELETE_instance_signals ctx i :
  Context_Instance ctx = Some i →
  signals ctx (api.DELETE_instance ctx)
    (inr (Manager_RemoveInstance (Instance_ID i))).
Proof.
  intros Hi. unfold api.DELETE_instance. rewrite Hi. apply signals_handler.
Qed.

Lemma DELETE_scope_signals ctx i s :
  Context_Instance ctx = Some i → Context_Scope ctx = Some s →
  signals ctx (api.DELETE_scope ctx) (inr (Instance_RemoveScope i (Scope_ID s))).
Proof.
  intros Hi Hs. unfold api.DELETE_scope. rewrite Hi, Hs. apply signals_handler.
Qed.

Lemma DELETE_plugin_signals ctx s p :
  Context_Scope ctx = Some s → Context_Plugin ctx = Some p →
  signals ctx (api.DELETE_plugin ctx)
    (inr (Scope_RemovePlugin s (plugin.Plugin_ID p))).
Proof.
  intros Hs Hp. unfold api.DELETE_plugin. rewrite Hs, Hp. apply signals_handler.
Qed.

Lemma DELETE_rule_signals ctx s r :
  Context_Scope ctx = Some s → Context_Rule ctx = Some r →
  signals ctx (api.DELETE_rule ctx) (inr (Scope_RemoveRule s (rule.Rule_ID r))).
Proof.
  intros Hs Hr. unfold api.DELETE_rule. rewrite Hs, Hr. apply signals_handler.
Qed.

Lemma Delete_signals ctx p :
  Context_Plugin ctx = Some p →
  signals ctx (controller.Delete ctx)
    (inr (Manager_RemovePlugin (plugin.Plugin_ID p))).
Proof.
  intros Hp. unfold controller.Delete. rewrite Hp. apply signals_handler.
Qed.

Lemma in_scope_signals ctx instance scope handler leaf :
  (∀ i s, signals (with_Scope s (with_Instance i ctx))
            (handler s (with_Scope s (with_Instance i ctx))) (leaf i s)) →
  signals ctx (in_scope instance scope handler ctx)
    (scoped_target instance scope leaf (Context_Manager ctx)).
Proof.
  intros Hleaf. unfold in_scope, scoped_target, resolve.
  destruct (Manager_GetInstance instance (Context_Manager ctx)) as [i|];
    [|apply signals_NotFound].
  simpl. destruct (find_scope scope i) as [s|].
  - apply Hleaf.
  - apply (signals_NotFound (with_Instance i ctx)).
Qed.

Lemma expected_signal_cases t (m : M) :
  (expected_signal t m = Success ↔ ∃ remove, t = inr remove ∧ (remove m).2 = true) ∧
  (expected_signal t m = RemovalFailed ↔ ∃ remove, t = inr remove ∧ (remove m).2 = false) ∧
  (expected_signal t m = NotFound ↔ ∃ what, t = inl what).
Proof.
  destruct t as [what|remove]; simpl.
  - repeat split; try done; try (by intros (? & ? & _)). by exists what.
  - destruct (remove m) as [m' ok] eqn:Hrm; simpl.
    destruct ok; repeat split; try done;
      try (by intros _; exists remove; rewrite Hrm);
      try (by intros (rm & [= <-] & Hok); rewrite Hrm in Hok);
      by intros [? ?].
Qed.

(** C6: what a removal by ID tells its caller. Each of the five removals
    (an Instance, a Scope, a Plugin of a scope, a Rule, a Plugin of the
    manager) returns having made one call on the context: not-found when an
    ID on its path names no entity, in which case the store is untouched;
    otherwise no-content exactly when the removal method returned [true],
    and error 500 when it returned [false]. Not-found and error 500 are
    different calls, so the caller can tell the two failures apart. *)
Theorem removal_signals ctx (instance scope plugin rule : string) :
  let m := Context_Manager ctx in
  signals ctx (remove_instance instance ctx) (instance_target instance m) ∧
  signals ctx (remove_scope instance scope ctx) (scope_target instance scope m) ∧
  signals ctx (remove_plugin instance scope plugin ctx)
    (plugin_target instance scope plugin m) ∧
  signals ctx (remove_rule instance scope rule ctx)
    (rule_target instance scope rule m) ∧
  signals ctx (remove_manager_plugin plugin ctx) (manager_plugin_target plugin m) ∧
  (∀ t, (expected_signal t m = Success ↔
           ∃ remove, t = inr remove ∧ (remove m).2 = true) ∧
        (expected_signal t m = RemovalFailed ↔
           ∃ remove, t = inr remove ∧ (remove m).2 = false) ∧
        (expected_signal t m = NotFound ↔ ∃ what, t = inl what)) ∧
  (∀ msg msg', signal_of (SendNotFound msg) = Some NotFound ∧
               signal_of (SendError 500 msg') = Some RemovalFailed ∧
               SendNotFound msg ≠ SendError 500 msg').
Proof.
  intros m. unfold m. repeat apply conj.
  - unfold remove_instance, instance_target, resolve.
    destruct (Manager_GetInstance instance (Context_Manager ctx)) as [i|].
    + by apply (DELETE_instance_signals (with_Instance i ctx)).
    + apply signals_NotFound.
  - apply in_scope_signals. intros i s. by apply DELETE_scope_signals.
  - apply in_scope_signals. intros i s. unfold resolve.
    destruct (find_plugin plugin (Scope_Plugins s)) as [p|].
    + by apply (DELETE_plugin_signals (with_Plugin p (with_Scope s (with_Instance i ctx))) s).
    + apply (signals_NotFound (with_Scope s (with_Instance i ctx))).
  - apply in_scope_signals. intros i s. unfold resolve.
    destruct (find_rule rule s) as [r|].
    + by apply (DELETE_rule_signals (with_Rule r (with_Scope s (with_Instance i ctx))) s).
    + apply (signals_NotFound (with_Scope s (with_Instance i ctx))).
  - unfold remove_manager_plugin, manager_plugin_target, resolve.
    destruct (find_plugin plugin (Manager_Plugins (Context_Manager ctx))) as [p|].
    + by apply (Delete_signals (with_Plugin p ctx)).
    + apply signals_NotFound.
  - intros t. apply expected_signal_cases.
  - by intros msg msg'.
Qed.

End removals.

(** The removals run on a store of plugins: the plugin "p1" of the scope is
    removed, "p9" is not found, and the instance, whose removal this backend
    refuses, gives error 500. *)
Example removal_runs :
  let ctx := manager.mkContext [sample_plugin true] None None None None "" [] in
  (manager.Context_Calls <$>
     manager.remove_plugin (Backend0 := list_backend) "i1" "s1" "p1" ctx)
    = Returns [manager.SendNoContent] ∧
  (manager.Context_Manager <$>
     manager.remove_plugin (Backend0 := list_backend) "i1" "s1" "p1" ctx)
    = Returns [] ∧
  (manager.Context_Calls <$>
     manager.remove_plugin (Backend0 := list_backend) "i1" "s1" "p9" ctx)
    = Returns [manager.SendNotFound "Plugin not found"] ∧
  (manager.Context_Calls <$>
     manager.remove_scope (Backend0 := list_backend) "i1" "s7" ctx)
    = Returns [manager.SendNotFound "Scope not found"] ∧
  (manager.Context_Calls <$>
     manager.remove_instance (Backend0 := list_backend) "i1" ctx)
    = Returns [manager.SendError 500 "Cannot remove instance"].
Proof. vm_compute. repeat split. Qed.

(** ** The proxy: [New] and [ServeHTTP] *)
Section proxy.
Import http vinxi.

Lemma prepare_fields (r : Request) :
  context.Get (prepare r) "vinxi.host" = Some (config.VString (Request_Host r)) ∧
  URL_Host (Request_URL (prepare r)) = Request_Host r ∧
  Request_Host (prepare r) = Request_Host r ∧
  Request_Method (prepare r) = Request_Method r ∧
  URL_Path (Request_URL (prepare r)) = URL_Path (Request_URL r).
Proof.
  unfold prepare, context.Get, context.Set_, set_URL_Host. simpl.
  by rewrite lookup_insert_eq.
Qed.

Lemma DefaultForwarder_passHost : forward.passHost DefaultForwarder = true.
Proof. reflexivity. Qed.

(** C3: [ServeHTTP] runs the "request" phase of the root layer on a request
    that already has the inbound Host under the context key "vinxi.host"
    and as the host of its URL, the target the forwarder proxies to; the
    default forwarder is built by [forward.New] with [PassHostHeader(true)],
    so host preservation is on and the upstream is given the inbound Host. *)
Theorem ServeHTTP_exposes_host (v : Vinxi) (r : Request) :
  ∃ r',
    ServeHTTP v r =
      layer.Run (router.HandleHTTP (Vinxi_Router v)) (Vinxi_Layer v) "request" r' None ∧
    context.Get r' "vinxi.host" = Some (config.VString (Request_Host r)) ∧
    URL_Host (forward.target r') = Request_Host r ∧
    Request_Host r' = Request_Host r ∧
    DefaultForwarder = fst (forward.New [forward.PassHostHeader true]) ∧
    forward.passHost DefaultForwarder = true ∧
    forward.upstream_Host DefaultForwarder r' = Request_Host r.
Proof.
  exists (prepare r). destruct (prepare_fields r) as (Hctx & Hurl & Hhost & _).
  split; [reflexivity|]. split; [exact Hctx|]. split; [exact Hurl|].
  split; [exact Hhost|]. split; [reflexivity|]. split; [reflexivity|].
  unfold forward.upstream_Host. by rewrite DefaultForwarder_passHost.
Qed.

Lemma Routes_Layer (routes : list router.Route) (v : Vinxi) :
  Vinxi_Layer (foldl (λ v route, Route_ route v) v routes) = Vinxi_Layer v.
Proof. revert v. induction routes as [|rt routes IH]; intros v; simpl; [done|]. by rewrite IH. Qed.

Lemma Routes_Router (routes : list router.Route) (v : Vinxi) :
  router.Router_Routes (Vinxi_Router (foldl (λ v route, Route_ route v) v routes))
    = router.Router_Routes (Vinxi_Router v) ++ routes.
Proof.
  revert v. induction routes as [|rt routes IH]; intros v; simpl.
  - by rewrite app_nil_r.
  - rewrite IH. simpl. by rewrite <- app_assoc.
Qed.

Lemma HandleHTTP_no_match (rt : router.Router) (r : Request) :
  (∀ route, route ∈ router.Router_Routes rt → router.Route_Matches route r = false) →
  router.HandleHTTP rt r = layer.Next r.
Proof.
  intros Hno. unfold router.HandleHTTP.
  destruct (List.find _ _) as [route|] eqn:Hfind; [|done].
  apply find_some in Hfind as [Hin Hmatch].
  apply list_elem_of_In in Hin. by rewrite Hno in Hmatch.
Qed.

Lemma HandleHTTP_match (rt : router.Router) (r : Request) route :
  route ∈ router.Router_Routes rt → router.Route_Matches route r = true →
  ∃ resp, router.HandleHTTP rt r = layer.Stop resp.
Proof.
  intros Hin Hmatch. unfold router.HandleHTTP.
  destruct (List.find _ _) as [route'|] eqn:Hfind; [by eexists|].
  apply list_elem_of_In in Hin.
  pose proof (find_none _ _ Hfind _ Hin) as Hnone. simpl in Hnone. congruence.
Qed.

Lemma New_request_handlers (env : Env) :
  layer.handlers "request" (Vinxi_Layer (New env)) = [layer.RouterHandler].
Proof. reflexivity. Qed.

(** With routes registered on a new proxy, a request that matches one of
    them is answered by a route and does not reach the forwarder. *)
Lemma ServeHTTP_route_match (env : Env) (routes : list router.Route)
    (r : Request) route :
  route ∈ routes → router.Route_Matches route (prepare r) = true →
  ∃ resp, ServeHTTP (foldl (λ v route, Route_ route v) (New env) routes) r
          = layer.Handled resp.
Proof.
  intros Hin Hmatch.
  destruct (HandleHTTP_match
              (Vinxi_Router (foldl (λ v route, Route_ route v) (New env) routes))
              (prepare r) route) as [resp Hstop]; [|done|].
  { by rewrite Routes_Router. }
  exists resp. unfold ServeHTTP, layer.Run.
  rewrite Routes_Layer, New_request_handlers. simpl. by rewrite Hstop.
Qed.

(** C4: [New] wires the router and the forwarder into the root layer. The
    "request" phase of the root layer holds the router, at Tail, and nothing
    else; the router's parent is the root layer; the final handler is the
    DefaultForwarder and the root layer has no parent. So, with whatever
    routes are then registered, a request that matches none of them goes
    through the router to the Forwarder and is not dropped. *)
Theorem New_wires_router_and_forwarder (env : Env) (routes : list router.Route)
    (r : Request) :
  let v := New env in
  let v' := foldl (λ v route, Route_ route v) v routes in
  (layer.Pool_Tail (layer.pool "request" (Vinxi_Layer v)) = [layer.RouterHandler] ∧
   layer.Pool_Head (layer.pool "request" (Vinxi_Layer v)) = [] ∧
   layer.Pool_Normal (layer.pool "request" (Vinxi_Layer v)) = []) ∧
  router.Router_parent (Vinxi_Router v) = Some layer.RootLayer ∧
  layer.Layer_finalHandler (Vinxi_Layer v) = Some (layer.Forward DefaultForwarder) ∧
  layer.Layer_parent (Vinxi_Layer v) = None ∧
  ((∀ route, route ∈ routes → router.Route_Matches route (prepare r) = false) →
   ServeHTTP v' r = layer.ReachedFinal (layer.Forward DefaultForwarder) (prepare r)).
Proof.
  intros v v'.
  split; [done|]. split; [done|]. split; [done|]. split; [done|].
  intros Hno. unfold ServeHTTP, layer.Run, v', v.
  rewrite Routes_Layer, New_request_handlers. simpl.
  rewrite HandleHTTP_no_match; [done|]. by rewrite Routes_Router.
Qed.

End proxy.

Lemma New_wires_router_and_forwarder_witness :
  let api_route :=
    router.mkRoute "GET" "/health"
      (λ r, bool_decide (http.URL_Path (http.Request_URL r) = "/health"))
      (λ _, http.mkResponse 200 "ok") in
  vinxi.ServeHTTP (vinxi.Route_ api_route (vinxi.New sample_env)) sample_request
    = layer.ReachedFinal (layer.Forward vinxi.DefaultForwarder)
        (vinxi.prepare sample_request).
Proof.
  intros api_route.
  apply (New_wires_router_and_forwarder sample_env [api_route] sample_request).
  intros route Hin. apply list_elem_of_singleton in Hin. subst route.
  vm_compute. reflexivity.
Defined.

(** * Further properties *)

(** ** The rule registry over a history of registrations *)
Section registry_history.
Import rule.
Implicit Types (Rules : gmap string Info) (r : Info) (name : string)
  (rs : list Info).

Lemma registered_snoc rs r : registered (rs ++ [r]) = Register r (registered rs).
Proof. unfold registered. by rewrite foldl_snoc. Qed.

Lemma registered_lookup_last rs name :
  registered rs !! name = last (filter (λ r, Info_Name r = name) rs).
Proof.
  induction rs as [|r rs IH] using rev_ind; [done|].
  rewrite registered_snoc, filter_app.
  destruct (decide (Info_Name r = name)) as [Heq|Hne].
  - rewrite filter_cons_True, filter_nil by done.
    rewrite last_snoc. subst name. apply Register_lookup.
  - rewrite filter_cons_False, filter_nil, app_nil_r by done.
    by rewrite Register_lookup_ne.
Qed.

Lemma last_filter_Some {A} (P : A → Prop) `{!∀ x, Decision (P x)} (l : list A) x :
  last (filter P l) = Some x → P x ∧ x ∈ l.
Proof.
  intros Hlast. apply last_Some_elem_of in Hlast.
  by apply list_elem_of_filter in Hlast.
Qed.

(** X1: after any sequence of registrations from the empty registry, a name
    exists exactly when one of the registrations carried it. *)
Theorem Exists_iff_registered rs name :
  Exists name (registered rs) = true ↔ name ∈ Info_Name <$> rs.
Proof.
  rewrite Exists_true, registered_lookup_last. split.
  - intros [r Hr]. apply last_filter_Some in Hr as [Hname Hin].
    apply list_elem_of_fmap. by exists r.
  - intros Hin. apply list_elem_of_fmap in Hin as (r & -> & Hin).
    destruct (last (filter (λ r', Info_Name r' = Info_Name r) rs)) as [r'|] eqn:Hlast;
      [by eexists|].
    apply last_None in Hlast.
    by apply (filter_nil_not_elem_of _ _ r) in Hlast.
Qed.

(** X2: a registry built by [Register] alone stores every Info under its own
    name. For a name that exists, [GetInfo] returns one of the registered
    Infos, that Info carries the name asked for, and [Get] returns its
    factory. *)
Theorem registered_under_own_name rs name :
  Exists name (registered rs) = true →
  Info_Name (GetInfo name (registered rs)) = name ∧
  GetInfo name (registered rs) ∈ rs ∧
  Get name (registered rs) = Info_Factory (GetInfo name (registered rs)).
Proof.
  rewrite Exists_true. intros [r Hr]. unfold GetInfo, Get. rewrite Hr.
  rewrite registered_lookup_last in Hr.
  apply last_filter_Some in Hr as [Hname Hin]. done.
Qed.

Lemma registered_under_own_name_witness :
  Info_Name (GetInfo "path" (registered [sample_rule_info "old"; sample_rule_info "new"]))
    = "path" ∧
  GetInfo "path" (registered [sample_rule_info "old"; sample_rule_info "new"])
    ∈ [sample_rule_info "old"; sample_rule_info "new"].
Proof.
  destruct (registered_under_own_name
              [sample_rule_info "old"; sample_rule_info "new"] "path" eq_refl)
    as (Hname & Hin & _).
  split; [exact Hname | exact Hin].
Defined.

(** X3: [Get] and [GetInfo] always agree: the factory [Get] returns is the
    factory of the Info [GetInfo] returns. For a missing name that Info is
    the zero value (empty name, no parameters, nil factory); for a name in
    the registry it is the stored Info. *)
Theorem Get_agrees_with_GetInfo name Rules :
  Get name Rules = Info_Factory (GetInfo name Rules) ∧
  (if Exists name Rules then Rules !! name = Some (GetInfo name Rules)
   else GetInfo name Rules = zeroInfo ∧ Get name Rules = None).
Proof.
  unfold Get, GetInfo, Exists. by destruct (Rules !! name).
Qed.




(** X6: registering a rule changes nothing for the other names: existence,
    factory, Info and initialization under any other name are as before. *)
Theorem Register_frame r name (opts : config.Config) Rules :
  Info_Name r ≠ name →
  Exists name (Register r Rules) = Exists name Rules ∧
  Get name (Register r Rules) = Get name Rules ∧
  GetInfo name (Register r Rules) = GetInfo name Rules ∧
  Init name opts (Register r Rules) = Init name opts Rules.
Proof.
  intros Hne. unfold Init, Exists, Get, GetInfo.
  by rewrite (Register_lookup_ne _ _ _ Hne).
Qed.

Lemma Register_frame_witness :
  GetInfo "path" (Register (mkInfo "acl" "" [] None) (registered [sample_rule_info "old"]))
    = sample_rule_info "old" ∧
  Exists "path" (Register (mkInfo "acl" "" [] None) (registered [sample_rule_info "old"]))
    = true.
Proof.
  destruct (Register_frame (mkInfo "acl" "" [] None) "path" ∅
              (registered [sample_rule_info "old"]) ltac:(discriminate))
    as (Hexists & _ & Hinfo & _).
  split; [exact Hinfo | exact Hexists].
Defined.

(** X7: over a whole history the last registration of a name wins: [GetInfo]
    returns the last Info registered under the name, and the zero Info when
    there is none; [Get] returns that Info's factory. *)
Theorem registered_last_wins rs name :
  GetInfo name (registered rs) =
    default zeroInfo (last (filter (λ r, Info_Name r = name) rs)) ∧
  Get name (registered rs) =
    (last (filter (λ r, Info_Name r = name) rs)) ≫= Info_Factory.
Proof.
  unfold GetInfo, Get. rewrite registered_lookup_last.
  by destruct (last _).
Qed.

End registry_history.

(** ** The JSON views of api.go beyond the plugins *)
Section guarded_loops.
Context {A B : Type} (ok : A → bool) (g : A → B) (msg : string)
  (f : A → outcome B).
Hypothesis f_guarded : ∀ x, f x = if ok x then Returns (g x) else Panics msg.

(** A loop over elements whose view either is built or panics with [msg]
    returns all the views when every element is fine and panics with [msg]
    otherwise, provided the slice it stores into is long enough. *)
Lemma range_assign_guarded (xs : list A) (i : nat) (buf : list B) :
  i + length xs ≤ length buf →
  range_assign f xs i buf =
    if forallb ok xs
    then Returns (take i buf ++ (g <$> xs) ++ drop (i + length xs) buf)
    else Panics msg.
Proof.
  revert i buf. induction xs as [|x xs IH]; intros i buf Hlen; simpl in *.
  - by rewrite Nat.add_0_r, take_drop.
  - rewrite f_guarded. destruct (ok x); simpl; [|done].
    unfold mbind. simpl. rewrite index_assign_lt by lia. simpl.
    rewrite IH by (rewrite length_insert; lia).
    destruct (forallb ok xs); [|done]. f_equal.
    rewrite (take_S_r _ i (g x)) by (apply list_lookup_insert_eq; lia).
    rewrite take_insert_ge by lia.
    rewrite drop_insert_lt by lia.
    rewrite <- app_assoc. simpl.
    by replace (S (i + length xs)) with (i + S (length xs)) by lia.
Qed.

Lemma range_append_o_guarded (xs : list A) (buf : list B) :
  range_append_o f xs buf =
    if forallb ok xs then Returns (buf ++ (g <$> xs)) else Panics msg.
Proof.
  revert buf. induction xs as [|x xs IH]; intros buf; simpl.
  - by rewrite app_nil_r.
  - rewrite f_guarded. destruct (ok x); simpl; [|done].
    unfold mbind. simpl. rewrite IH.
    destruct (forallb ok xs); [|done]. by rewrite <- app_assoc.
Qed.

End guarded_loops.

Section more_views.
Import manager.

(** X8: [createRules] never panics and returns the view of every rule of the
    scope, one per rule and in the order of the scope; each view carries the
    rule's ID, name, description and configuration, and empty metadata. *)
Theorem createRules_one_per_rule (scope : Scope) :
  api.createRules scope = Returns (api.createRule <$> Scope_Rules scope) ∧
  (∀ i, (api.createRule <$> Scope_Rules scope) !! i =
          (λ r, mkJSONRule (rule.Rule_ID r) (rule.Rule_Name r)
                  (rule.Rule_Description r) (rule.Rule_Config r) ∅)
            <$> (Scope_Rules scope !! i)).
Proof.
  split; [apply api_createRules_fmap|].
  intros i. by rewrite list_lookup_fmap.
Qed.

Lemma createScope_guarded (scope : Scope) :
  api.createScope scope =
    if bool_decide (Scope_Plugins scope = [])
    then Returns (plain_scope_view scope)
    else Panics out_of_range_0_0.
Proof.
  unfold api.createScope, plain_scope_view. rewrite api_createRules_fmap.
  unfold mbind. simpl.
  destruct (Scope_Plugins scope) as [|p ps]; [done|].
  by rewrite api_createPlugins_cons, index_out_of_range_0_0.
Qed.

(** X9: [createScope] gives the view of a scope only when the scope holds no
    plugin: then the view carries the scope's ID and name, the views of its
    rules and an empty plugin list; for a scope with a plugin it panics with
    the index out of range of [createPlugins]. *)
Theorem createScope_cases (scope : Scope) :
  api.createScope scope =
    match Scope_Plugins scope with
    | [] => Returns {| JSONScope_ID := Scope_ID scope;
                       JSONScope_Name := Scope_Name scope;
                       JSONScope_Rules := api.createRule <$> Scope_Rules scope;
                       JSONScope_Plugins := [] |}
    | _ :: _ => Panics "runtime error: index out of range [0] with length 0"
    end.
Proof.
  rewrite createScope_guarded. by destruct (Scope_Plugins scope).
Qed.

Lemma no_plugins_Forall (scopes : list Scope) :
  no_plugins scopes = true ↔ Forall (λ s, Scope_Plugins s = []) scopes.
Proof.
  unfold no_plugins. rewrite forallb_forall, Forall_forall.
  split; intros H s Hin.
  - apply list_elem_of_In in Hin. apply H in Hin.
    by apply bool_decide_eq_true in Hin.
  - apply bool_decide_eq_true, H. by apply list_elem_of_In.
Qed.

Lemma createScopes_guarded (scopes : list Scope) :
  api.createScopes scopes =
    if no_plugins scopes then Returns (plain_scope_view <$> scopes)
    else Panics out_of_range_0_0.
Proof.
  unfold api.createScopes, no_plugins.
  rewrite (range_assign_guarded _ plain_scope_view out_of_range_0_0)
    by (apply createScope_guarded || (rewrite length_replicate; lia)).
  destruct (forallb _ scopes); [|done].
  rewrite take_0. simpl.
  rewrite drop_ge by (rewrite length_replicate; lia).
  by rewrite app_nil_r.
Qed.

(** X10: [createScopes] returns exactly when no scope of the list holds a
    plugin, and then gives one view per scope, in order; as soon as one
    scope holds a plugin the whole listing panics. *)
Theorem createScopes_cases (scopes : list Scope) :
  (returns (api.createScopes scopes) ↔
     Forall (λ s, Scope_Plugins s = []) scopes) ∧
  (Forall (λ s, Scope_Plugins s = []) scopes →
     api.createScopes scopes = Returns (plain_scope_view <$> scopes)) ∧
  (Exists (λ s, Scope_Plugins s ≠ []) scopes →
     api.createScopes scopes =
       Panics "runtime error: index out of range [0] with length 0").
Proof.
  rewrite createScopes_guarded.
  destruct (no_plugins scopes) eqn:Hall.
  - apply no_plugins_Forall in Hall.
    split; [split; [done | by eexists]|]. split; [done|].
    intros Hex. apply Exists_exists in Hex as (s & Hin & Hs).
    rewrite Forall_forall in Hall. by specialize (Hall s Hin).
  - assert (Hsome : ¬ Forall (λ s, Scope_Plugins s = []) scopes).
    { intros Hnone. apply no_plugins_Forall in Hnone. congruence. }
    split; [split; [by intros [l Hl] | done]|]. by split.
Qed.

End more_views.

Lemma createScopes_cases_witness :
  manager.api.createScopes [manager.mkScope "s1" "api" [rule.mkRule "r1" "path" "" ∅] []]
    = Returns [manager.mkJSONScope "s1" "api" [manager.mkJSONRule "r1" "path" "" ∅ ∅] []] ∧
  manager.api.createScopes
      [manager.mkScope "s1" "api" []  []; manager.mkScope "s2" "web" [] [sample_plugin true]]
    = Panics "runtime error: index out of range [0] with length 0".
Proof.
  split.
  - apply (createScopes_cases
             [manager.mkScope "s1" "api" [rule.mkRule "r1" "path" "" ∅] []]).
    by repeat constructor.
  - apply (createScopes_cases
             [manager.mkScope "s1" "api" [] [];
              manager.mkScope "s2" "web" [] [sample_plugin true]]).
    apply Exists_cons_tl, Exists_cons_hd. discriminate.
Defined.

(** ** The listing routes *)
Section listings.
Import manager listing.
Context {M : Type} `{!Backend M} `{!Listing M}.
Implicit Types (ctx : Context M).

Lemma createInstance_guarded (instance : Instance) ctx :
  createInstance instance ctx =
    if no_plugins (Instance_Scopes instance)
    then Returns (plain_instance_view instance)
    else Panics out_of_range_0_0.
Proof.
  unfold createInstance. rewrite createScopes_guarded.
  by destruct (no_plugins _).
Qed.

(** X11: [createInstances] gives one view per instance, in order, when no
    scope of any instance holds a plugin, and panics with the index out of
    range of [createPlugins] as soon as one does. *)
Theorem createInstances_cases (instances : list Instance) ctx :
  createInstances instances ctx =
    if forallb (λ i, no_plugins (Instance_Scopes i)) instances
    then Returns (plain_instance_view <$> instances)
    else Panics "runtime error: index out of range [0] with length 0".
Proof.
  unfold createInstances.
  by rewrite (range_append_o_guarded (λ i, no_plugins (Instance_Scopes i))
                plain_instance_view out_of_range_0_0)
    by (intros i; apply createInstance_guarded).
Qed.

Lemma sends_view {V} (o : outcome V) (body : V → Payload) ctx ctx' :
  (v ← o; Returns (call (SendJSON (body v)) ctx)) = Returns ctx' →
  ∃ b, ctx' = call (SendJSON b) ctx.
Proof.
  destruct o as [v|msg]; [|done]. intros [= <-]. by eexists.
Qed.

(** X12: the [GET] routes only read. Whenever one of the listing handlers
    returns, it has made exactly one call, a [SendJSON], and the store, the
    resolved entities and the body of the context are as they were. *)
Theorem GET_handlers_read_only (h : Context M → outcome (Context M)) ctx ctx' :
  h ∈ GET_handlers →
  h ctx = Returns ctx' →
  ∃ body, ctx' = call (SendJSON body) ctx ∧
          Context_Manager ctx' = Context_Manager ctx ∧
          Context_Calls ctx' = Context_Calls ctx ++ [SendJSON body].
Proof.
  intros Hh Hret.
  assert (Hsend : ∃ b, ctx' = call (SendJSON b) ctx).
  { unfold GET_handlers in Hh.
    repeat (apply elem_of_cons in Hh as [-> | Hh]);
      [..|by apply elem_of_nil in Hh];
      unfold api.GET_plugins, GET_scopes, GET_scope, GET_instances, GET_instance,
        GET_instance_scopes, GET_scope_plugins, GET_scope_plugin, GET_rules,
        GET_rule in Hret;
      repeat match type of Hret with
             | match ?o with _ => _ end = _ => destruct o; [|done]
             end;
      first [ by apply sends_view in Hret
            | injection Hret as <-; by eexists ]. }
  destruct Hsend as [b ->]. by exists b.
Qed.

(** X13: the plugin listings of [api.go] answer only when there is nothing
    to list. [GET /plugins] sends the empty list when the manager holds no
    plugin and panics otherwise, and so does the plugin listing of a scope. *)
Theorem GET_plugins_cases ctx :
  api.GET_plugins ctx =
    match Manager_Plugins (Context_Manager ctx) with
    | [] => Returns (call (SendJSON (JPlugins [])) ctx)
    | _ :: _ => Panics "runtime error: index out of range [0] with length 0"
    end ∧
  (∀ scope, Context_Scope ctx = Some scope →
     GET_scope_plugins ctx =
       match Scope_Plugins scope with
       | [] => Returns (call (SendJSON (JPlugins [])) ctx)
       | _ :: _ => Panics "runtime error: index out of range [0] with length 0"
       end).
Proof.
  split.
  - unfold api.GET_plugins.
    destruct (Manager_Plugins _) as [|p ps]; [done|].
    by rewrite api_createPlugins_cons, index_out_of_range_0_0.
  - intros scope Hscope. unfold GET_scope_plugins. rewrite Hscope.
    destruct (Scope_Plugins _) as [|p ps]; [done|].
    by rewrite api_createPlugins_cons, index_out_of_range_0_0.
Qed.

End listings.

Lemma GET_handlers_read_only_witness :
  let ctx := manager.mkContext [sample_plugin true] None
               (Some (manager.mkScope "s1" "api" [rule.mkRule "r1" "path" "" ∅] []))
               None None "" [] in
  ∃ body ctx',
    listing.GET_rules ctx = Returns ctx' ∧
    manager.Context_Manager ctx' = [sample_plugin true] ∧
    manager.Context_Calls ctx' = [manager.SendJSON body].
Proof.
  intros ctx.
  assert (Hin : listing.GET_rules
                  ∈ listing.GET_handlers (Backend0 := list_backend)
                      (Listing0 := list_listing)).
  { unfold listing.GET_handlers.
    repeat first [apply list_elem_of_here | apply list_elem_of_further]. }
  destruct (GET_handlers_read_only listing.GET_rules ctx
              (manager.call
                 (manager.SendJSON
                    (manager.JRules [manager.mkJSONRule "r1" "path" "" ∅ ∅])) ctx)
              Hin eq_refl)
    as (body & _ & Hmanager & Hcalls).
  exists body. eexists. split; [reflexivity|]. split; [exact Hmanager | exact Hcalls].
Defined.

Lemma GET_plugins_cases_witness :
  let scope := manager.mkScope "s1" "api" [] [sample_plugin true] in
  listing.GET_scope_plugins
    (manager.mkContext ([] : plugin.Layer) None (Some scope) None None "" [])
  = Panics "runtime error: index out of range [0] with length 0".
Proof.
  intros scope.
  exact (proj2 (GET_plugins_cases (Backend0 := list_backend)
                  (manager.mkContext [] None (Some scope) None None "" []))
           scope eq_refl).
Defined.

(** ** The plugins controller *)
Section controller_more.
Import manager.
Context {M : Type} `{!Backend M}.
Implicit Types (ctx : Context M).

(** X14: the [createPlugins] of the controller file maps the slice: the
    views come one per plugin and in order, and the views of a concatenation
    are the concatenation of the views. *)
Theorem controller_createPlugins_app (xs ys : list plugin.Plugin) :
  controller.createPlugins (xs ++ ys)
    = controller.createPlugins xs ++ controller.createPlugins ys ∧
  length (controller.createPlugins xs) = length xs ∧
  (∀ i, controller.createPlugins xs !! i = controller.createPlugin <$> (xs !! i)).
Proof.
  rewrite !controller_createPlugins_fmap. split; [apply fmap_app|].
  split; [apply length_fmap|]. intros i. apply list_lookup_fmap.
Qed.

Lemma new_calls_same ctx : new_calls ctx ctx = [].
Proof. unfold new_calls. apply drop_all. Qed.

Lemma new_calls_call ctx c : new_calls ctx (call c ctx) = [c].
Proof. unfold new_calls. simpl. by rewrite drop_app_length. Qed.

Lemma new_calls_UsePlugin ctx p c :
  new_calls ctx (call c (Context_UsePlugin p ctx)) = [UsePlugin p; c].
Proof.
  unfold new_calls. simpl. rewrite <- app_assoc. by rewrite drop_app_length.
Qed.

(** X15: a creation that succeeds inserts and then answers. When the body
    names a registered plugin whose factory accepts the configuration,
    [Create] calls [UsePlugin] with the instance the factory built, once,
    then sends the view of that instance; the store is the one [UsePlugin]
    gives. *)
Theorem Create_inserts_then_sends (Plugins : gmap string plugin.Info)
    ctx plu factory instance :
  ParseBody (Context_Body ctx) = inl plu →
  data_Name plu ≠ "" →
  plugin.Get (data_Name plu) Plugins = Some factory →
  factory (data_Params plu) = inl instance →
  new_calls ctx (controller.Create Plugins ctx) =
    [UsePlugin instance; Send (JPlugin (controller.createPlugin instance))] ∧
  Context_Manager (controller.Create Plugins ctx) =
    Manager_UsePlugin instance (Context_Manager ctx).
Proof.
  intros Hparse Hname Hget Hbuilt.
  rewrite (Create_parsed _ _ _ Hparse Hname), Hget, Hbuilt.
  by rewrite new_calls_UsePlugin.
Qed.

(** X16: [Create] inserts only what a factory built. [UsePlugin] is among
    the calls of [Create] for a plugin [p] exactly when the body parsed, named
    a plugin, the registry gave a factory for the name and that factory
    returned [p]; in every other case the store is untouched and [Create]
    makes at most one call. *)
Theorem Create_uses_plugin_only_on_success (Plugins : gmap string plugin.Info) ctx :
  (∀ p, UsePlugin p ∈ new_calls ctx (controller.Create Plugins ctx) ↔
        ∃ plu factory,
          ParseBody (Context_Body ctx) = inl plu ∧ data_Name plu ≠ "" ∧
          plugin.Get (data_Name plu) Plugins = Some factory ∧
          factory (data_Params plu) = inl p) ∧
  ((∀ p, UsePlugin p ∉ new_calls ctx (controller.Create Plugins ctx)) →
   Context_Manager (controller.Create Plugins ctx) = Context_Manager ctx ∧
   length (new_calls ctx (controller.Create Plugins ctx)) ≤ 1).
Proof.
  destruct (ParseBody (Context_Body ctx)) as [plu|err] eqn:Hparse.
  2:{ assert (Hsame : controller.Create Plugins ctx = ctx).
      { unfold controller.Create. by rewrite Hparse. }
      rewrite Hsame, new_calls_same. split.
      - intros p. split; [by intros ?%elem_of_nil | by intros (? & ? & ? & _)].
      - intros _. split; [done | simpl; lia]. }
  destruct (decide (data_Name plu = "")) as [Hempty|Hname].
  { assert (Hmissing : controller.Create Plugins ctx
                       = call (SendError 400 "Missing required param: name") ctx).
    { unfold controller.Create. by rewrite Hparse, decide_True. }
    rewrite Hmissing, new_calls_call. split.
    - intros p. split.
      + by intros [=]%list_elem_of_singleton.
      + intros (plu' & f & [= <-] & Hne & _). done.
    - intros _. split; [done | simpl; lia]. }
  rewrite (Create_parsed _ _ _ Hparse Hname).
  destruct (plugin.Get (data_Name plu) Plugins) as [factory|] eqn:Hget.
  2:{ rewrite new_calls_call. split.
      - intros p. split.
        + by intros [=]%list_elem_of_singleton.
        + intros (plu' & f & [= <-] & _ & Hf & _). congruence.
      - intros _. split; [done | simpl; lia]. }
  destruct (factory (data_Params plu)) as [instance|err] eqn:Hbuilt.
  - rewrite new_calls_UsePlugin. split.
    + intros p. split.
      * intros [[= <-] | Hin]%elem_of_cons; [by exists plu, factory|].
        by apply list_elem_of_singleton in Hin.
      * intros (plu' & f & [= <-] & _ & Hf & Hp).
        rewrite Hget in Hf. injection Hf as <-. rewrite Hbuilt in Hp.
        injection Hp as <-. apply list_elem_of_here.
    + intros Hnever. destruct (Hnever instance). apply list_elem_of_here.
  - rewrite new_calls_call. split.
    + intros p. split.
      * by intros [=]%list_elem_of_singleton.
      * intros (plu' & f & [= <-] & _ & Hf & Hp).
        rewrite Hget in Hf. injection Hf as <-. congruence.
    + intros _. split; [done | simpl; lia].
Qed.

(** X17: [Create] turns a request down before it looks at the registry. A
    body that does not parse leaves the context as it is, with no call from
    [Create]; a body with an empty name is answered 400 "Missing required
    param: name", whatever is registered, and nothing is inserted. *)
Theorem Create_rejects_before_lookup (Plugins : gmap string plugin.Info) ctx :
  (∀ err, ParseBody (Context_Body ctx) = inr err →
          controller.Create Plugins ctx = ctx) ∧
  (∀ plu, ParseBody (Context_Body ctx) = inl plu → data_Name plu = "" →
          controller.Create Plugins ctx =
            call (SendError 400 "Missing required param: name") ctx ∧
          Context_Manager (controller.Create Plugins ctx) = Context_Manager ctx).
Proof.
  split.
  - intros err Hparse. unfold controller.Create. by rewrite Hparse.
  - intros plu Hparse Hempty. unfold controller.Create.
    by rewrite Hparse, decide_True.
Qed.

End controller_more.

Lemma Create_inserts_then_sends_witness :
  let accepting := plugin.mkInfo "auth" "" [] (Some (λ _, inl (sample_plugin true))) in
  let ctx := manager.mkContext [sample_plugin false] None None None None "auth" [] in
  manager.Context_Manager
    (manager.controller.Create (Backend0 := list_backend)
       (plugin.Register accepting ∅) ctx)
  = [sample_plugin false; sample_plugin true].
Proof.
  intros accepting ctx.
  exact (proj2 (Create_inserts_then_sends (Backend0 := list_backend)
                  (plugin.Register accepting ∅) ctx (manager.mkdata "auth" ∅)
                  (λ _, inl (sample_plugin true)) (sample_plugin true)
                  eq_refl ltac:(discriminate) eq_refl eq_refl)).
Defined.

Lemma Create_uses_plugin_only_on_success_witness :
  let ctx := manager.mkContext [sample_plugin false] None None None None "auth" [] in
  manager.Context_Manager
    (manager.controller.Create (Backend0 := list_backend)
       (plugin.Register sample_plugin_info ∅) ctx)
  = [sample_plugin false].
Proof.
  intros ctx.
  refine (proj1 (proj2 (Create_uses_plugin_only_on_success (Backend0 := list_backend)
                          (plugin.Register sample_plugin_info ∅) ctx) _)).
  intros p Hin. vm_compute in Hin.
  apply list_elem_of_singleton in Hin. discriminate.
Defined.

Lemma Create_rejects_before_lookup_witness :
  let Plugins := plugin.Register (plugin.mkInfo "" "" [] (Some (λ _, inl (sample_plugin true)))) ∅ in
  let broken := manager.mkContext [sample_plugin false] None None None None "{" [] in
  let unnamed := manager.mkContext [sample_plugin false] None None None None "" [] in
  manager.controller.Create (Backend0 := list_backend) Plugins broken = broken ∧
  manager.controller.Create (Backend0 := list_backend) Plugins unnamed
    = manager.call (manager.SendError 400 "Missing required param: name") unnamed.
Proof.
  intros Plugins broken unnamed. split.
  - exact (proj1 (Create_rejects_before_lookup (Backend0 := list_backend) Plugins broken)
             "unexpected end of JSON input" eq_refl).
  - exact (proj1 (proj2 (Create_rejects_before_lookup (Backend0 := list_backend)
                           Plugins unnamed)
                    (manager.mkdata "" ∅) eq_refl eq_refl)).
Defined.

(** ** [ServeHTTP] and the host of the request *)
Section serve.
Import http vinxi.



End serve.

